(** * OrderFlow: the procurement workflow core, embedded in Rocq

    A shallow embedding of [src/shared/sanitizers.ts] and of the workflow
    and synchronisation logic of [src/App.tsx] ([buildProcess],
    [sanitizeStage], [useProcurementData], [handleFileUpload] and the
    upload controls rendered by [App]), together with the properties the
    specification states about them.

    Conventions of the embedding:
    - a JavaScript string is the list of its UTF-16 code units;
    - an untyped JavaScript value is a [JsVal]; an object is a finite map
      from property names to values;
    - code that can throw returns a [Completion];
    - code that mutates React state, the backing store or the screen is
      written in a small state-and-exception monad over a [World]. *)

From stdpp Require Import gmap list strings pretty.
From Stdlib Require Import ZArith NArith Ascii String Permutation Sorted.

Local Set Warnings "-register-all".

(** ** JavaScript strings *)

Abbreviation jsstring := (list N).

(** An ASCII literal as a JavaScript string. *)
Definition js (s : string) : jsstring :=
  map N_of_ascii (list_ascii_of_string s).

(** ** [src/shared/sanitizers.ts] *)

Module Sanitizer.

(** The character class of the regular expression: less-than (60),
    greater-than (62), double quote (34), single quote (39), backtick (96). *)
Definition isMarkupChar (c : N) : bool :=
  ((c =? 60) || (c =? 62) || (c =? 34) || (c =? 39) || (c =? 96))%N.

(** [WhiteSpace] and [LineTerminator] of ECMAScript, which
    [String.prototype.trim] strips: TAB, LF, VT, FF, CR, SP, NBSP,
    U+1680, U+2000..U+200A, U+2028, U+2029, U+202F, U+205F, U+3000 and
    U+FEFF. *)
Definition isWhiteSpace (c : N) : bool :=
  (((9 <=? c) && (c <=? 13)) || (c =? 32) || (c =? 160) || (c =? 5760)
   || ((8192 <=? c) && (c <=? 8202)) || (c =? 8232) || (c =? 8233)
   || (c =? 8239) || (c =? 8287) || (c =? 12288) || (c =? 65279))%N.

(** [value.replace(re, '')], with [re] the global match of that class:
    every occurrence is removed. *)
Definition stripMarkup (value : jsstring) : jsstring :=
  List.filter (fun c => negb (isMarkupChar c)) value.

Fixpoint trimStart (s : jsstring) : jsstring :=
  match s with
  | [] => []
  | c :: rest => if isWhiteSpace c then trimStart rest else s
  end.

Definition trimEnd (s : jsstring) : jsstring := rev (trimStart (rev s)).

(** [String.prototype.trim] *)
Definition trim (s : jsstring) : jsstring := trimEnd (trimStart s).

(** [sanitizeTextInput = (value) => value.replace(re, '').trim()] *)
Definition sanitizeTextInput (value : jsstring) : jsstring :=
  trim (stripMarkup value).

(** A string is clean when it holds none of the five markup characters. *)
Definition clean (s : jsstring) : Prop :=
  Forall (fun c => isMarkupChar c = false) s.

(** A string that does not begin with white space. *)
Definition startsTrimmed (s : jsstring) : Prop :=
  match s with [] => True | c :: _ => isWhiteSpace c = false end.

End Sanitizer.


(** ** Untyped JavaScript values

    The documents of the backing store reach [buildProcess] as
    [DocumentData]: objects whose fields the code only casts, never
    checks.  Numbers are kept as integers: no code below computes with a
    number read from a document. *)

Inductive JsVal : Type :=
| JUndefined
| JNull
| JBool (b : bool)
| JNum (n : Z)
| JStr (s : jsstring)
| JArr (elements : list JsVal)
| JObj (fields : gmap jsstring JsVal).

Inductive JsError : Type :=
| TypeError
| FirestoreError
| WebhookStatusError (status : Z).

(** The outcome of code that may throw. *)
Inductive Completion (A : Type) : Type :=
| Normal (a : A)
| Throw (e : JsError).
Arguments Normal {A} a.
Arguments Throw {A} e.

Definition cbind {A B} (c : Completion A) (k : A → Completion B) : Completion B :=
  match c with Normal a => k a | Throw e => Throw e end.

Notation "x ←! c ; k" := (cbind c (fun x => k))
  (at level 20, c at level 100, k at level 200, right associativity).

Fixpoint cmapM {A B} (f : A → Completion B) (l : list A) : Completion (list B) :=
  match l with
  | [] => Normal []
  | a :: l' => b ←! f a; bs ←! cmapM f l'; Normal (b :: bs)
  end.

Module Js.

(** [o.k] on an object: [undefined] when the property is absent. *)
Definition getProp (o : gmap jsstring JsVal) (k : jsstring) : JsVal :=
  default JUndefined (o !! k).

Definition nullish (v : JsVal) : bool :=
  match v with JUndefined | JNull => true | _ => false end.

(** [v ?? d] *)
Definition coalesce (v d : JsVal) : JsVal := if nullish v then d else v.

(** [v === 'lit'] for a string literal. *)
Definition strictEqStr (v : JsVal) (lit : jsstring) : bool :=
  match v with JStr s => bool_decide (s = lit) | _ => false end.

(** Truthiness of a string: the empty string is falsy. *)
Definition truthyStr (s : jsstring) : bool :=
  match s with [] => false | _ :: _ => true end.

(** The property name of an array index. *)
Definition indexKey (i : nat) : jsstring := js (pretty i).

(** The own enumerable properties that [{...v}] copies: the fields of an
    object, the elements of an array and the characters of a string under
    their indices, nothing for the other primitives. *)
Definition ownProps (v : JsVal) : gmap jsstring JsVal :=
  match v with
  | JObj fields => fields
  | JArr elements => list_to_map (imap (fun i e => (indexKey i, e)) elements)
  | JStr s => list_to_map (imap (fun i c => (indexKey i, JStr [c])) s)
  | _ => ∅
  end.

(** [{...a, ...v}]: the properties of [v] override those of [a]. *)
Definition spread (a : gmap jsstring JsVal) (v : JsVal) : gmap jsstring JsVal :=
  ownProps v ∪ a.

(** [s.split(sep)] for a one-character separator. *)
Fixpoint splitOn (sep : N) (s : jsstring) : list jsstring :=
  match s with
  | [] => [[]]
  | c :: rest =>
      if (c =? sep)%N then [] :: splitOn sep rest
      else match splitOn sep rest with
           | seg :: segs => (c :: seg) :: segs
           | [] => [[c]]
           end
  end.

Section Sort.
Context {A : Type} (compareFn : A → A → Z).

(** [x] goes before the first element it does not sort after, so equal
    elements keep their order: [Array.prototype.sort] is stable. *)
Fixpoint insertBy (x : A) (l : list A) : list A :=
  match l with
  | [] => [x]
  | y :: l' => if (compareFn x y <=? 0)%Z then x :: l else y :: insertBy x l'
  end.

(** [l.sort(compareFn)] *)
Definition sort (l : list A) : list A := foldr insertBy [] l.

(** No element sorts after a later one. *)
Definition sortedBy (l : list A) : Prop :=
  StronglySorted (fun a b => (compareFn a b <= 0)%Z) l.

(** Two elements that the comparison ranks the same. *)
Definition tied (p q : A) : bool :=
  (compareFn p q <=? 0)%Z && (compareFn q p <=? 0)%Z.

End Sort.

End Js.

(** ** [src/App.tsx]: the domain model *)

Module App.
Import Js.

Record ProcurementProcess : Type := {
  id : jsstring;
  supplierName : jsstring;
  status : JsVal;
  createdAt : JsVal;
  order : gmap jsstring JsVal;
  confirmation : gmap jsstring JsVal;
  delivery : gmap jsstring JsVal;
}.

(** [sanitizeTextInput] applied to a value that was only cast to
    [string]: anything but a string has no [replace] method, and the call
    throws a [TypeError]. *)
Definition sanitizeTextInput (value : JsVal) : Completion jsstring :=
  match value with
  | JStr s => Normal (Sanitizer.sanitizeTextInput s)
  | _ => Throw TypeError
  end.

(** The values on which that call does not throw once [??] has put the
    fallback in place of an absent one. *)
Definition stringOrAbsent (v : JsVal) : bool :=
  match v with JStr _ | JUndefined | JNull => true | _ => false end.

Definition defaultStep : gmap jsstring JsVal :=
  {[ js "status" := JStr (js "pending");
     js "conflictReason" := JNull;
     js "data" := JNull ]}.

Definition buildProcess (data : gmap jsstring JsVal) (fallbackId : jsstring)
    : Completion ProcurementProcess :=
  let orderStep := coalesce (getProp data (js "order")) (JObj ∅) in
  let confirmationStep := coalesce (getProp data (js "confirmation")) (JObj ∅) in
  let deliveryStep := coalesce (getProp data (js "delivery")) (JObj ∅) in
  id' ←! sanitizeTextInput (coalesce (getProp data (js "id")) (JStr fallbackId));
  supplierName' ←! sanitizeTextInput
    (coalesce (getProp data (js "supplierName")) (JStr (js "Unbekannt")));
  Normal {|
    id := id';
    supplierName := supplierName';
    status := coalesce (getProp data (js "status")) (JStr (js "open"));
    createdAt := coalesce (getProp data (js "createdAt")) JNull;
    order := spread defaultStep orderStep;
    confirmation := spread defaultStep confirmationStep;
    delivery := spread defaultStep deliveryStep;
  |}.

Inductive Stage : Type := StageConfirmation | StageDelivery.

#[export] Instance Stage_eq_dec : EqDecision Stage.
Proof. solve_decision. Defined.

Definition stageName (stage : Stage) : jsstring :=
  match stage with
  | StageConfirmation => js "confirmation"
  | StageDelivery => js "delivery"
  end.

Definition sanitizeStage (stage : jsstring) : option Stage :=
  if bool_decide (stage = js "confirmation") then Some StageConfirmation
  else if bool_decide (stage = js "delivery") then Some StageDelivery
  else None.

(** [p.confirmation.status], [p.delivery.status] *)
Definition stepStatus (step : gmap jsstring JsVal) : JsVal :=
  getProp step (js "status").

(** The precedence rule of the specification (section 4.3), in its words:
    [conflict] if the confirmation or the delivery stage is in conflict,
    else [completed] if the delivery stage is verified, else [open]. *)
Definition derivedStatus (confirmationStatus deliveryStatus : JsVal) : jsstring :=
  if strictEqStr confirmationStatus (js "conflict")
     || strictEqStr deliveryStatus (js "conflict")
  then js "conflict"
  else if strictEqStr deliveryStatus (js "verified") then js "completed"
  else js "open".

Definition followsPrecedence (p : ProcurementProcess) : Prop :=
  status p = JStr (derivedStatus (stepStatus (confirmation p)) (stepStatus (delivery p))).

End App.

(** ** Paths of the backing store *)

Module Firestore.
Import Js.

Fixpoint hasDoubleSlash (s : jsstring) : bool :=
  match s with
  | a :: (b :: _) as rest => ((a =? 47)%N && (b =? 47)%N) || hasDoubleSlash rest
  | _ => false
  end.

(** The resource path that [collection] and [doc] build from their
    segments: a segment holding two slashes in a row is refused, the
    segments are split at slashes and the empty ones dropped. *)
Definition resourcePath (segments : list jsstring) : Completion (list jsstring) :=
  if existsb hasDoubleSlash segments then Throw FirestoreError
  else Normal (List.filter truthyStr (List.concat (map (splitOn 47) segments))).

(** [collection(db, ...segments)]: a collection path has an odd number
    of segments. *)
Definition collection (segments : list jsstring) : Completion (list jsstring) :=
  path ←! resourcePath segments;
  if Nat.odd (List.length path) then Normal path else Throw FirestoreError.

End Firestore.

(** ** [src/App.tsx]: the realtime synchroniser, [useProcurementData] *)

Module Sync.
Import Js App.

(** The handles of [FirebaseServices] ([app], [auth], [db]) are opaque to
    the code; only their presence is ever tested. *)
Inductive FirebaseServices : Type := firebaseServices.

Inductive ConnectionStatus : Type :=
| StatusConnecting
| StatusConnected
| StatusError.

(** One document of a snapshot: [d.id] and [d.data()]. *)
Record QueryDocumentSnapshot : Type := {
  docId : jsstring;
  docData : gmap jsstring JsVal;
}.

(** The two pieces of React state the hook drives: [connectionStatus],
    which [App] owns and also sets when signing in fails, and [items]. *)
Record SyncState : Type := {
  connectionStatus : ConnectionStatus;
  items : list ProcurementProcess;
}.

Definition initialState : SyncState :=
  {| connectionStatus := StatusConnecting; items := [] |}.

Definition setConnectionStatus (c : ConnectionStatus) (st : SyncState) : SyncState :=
  {| connectionStatus := c; items := items st |}.

Definition setItems (ps : list ProcurementProcess) (st : SyncState) : SyncState :=
  {| connectionStatus := connectionStatus st; items := ps |}.

(** What reaches the two pieces of state during a session: a snapshot
    or a failure of the listener, and a failed sign-in, on which the
    [catch] block of [authenticate] sets the error status. *)
Inductive SessionEvent : Type :=
| SnapshotNext (docs : list QueryDocumentSnapshot)
| SnapshotError
| AuthenticationFailed.

(** The segments that the hook hands to [collection] after [services.db]. *)
Definition collectionSegments (appId : jsstring) : list jsstring :=
  [js "artifacts"; appId; js "public"; js "data"; js "procurement_processes"].

Section Collation.
(** [String.prototype.localeCompare] of the host, [localeCompare a b]
    standing for [a.localeCompare(b)]: the collation of the default
    locale, which the code does not choose. *)
Variable localeCompare : jsstring → jsstring → Z.

(** [(a, b) => b.id.localeCompare(a.id)] *)
Definition compareProcesses (a b : ProcurementProcess) : Z :=
  localeCompare (id b) (id a).

(** The success callback of [onSnapshot].  When [buildProcess] throws for
    a document, the exception leaves the callback after the connection
    status was set and before [setItems]. *)
Definition onSnapshotNext (docs : list QueryDocumentSnapshot) (st : SyncState)
    : SyncState :=
  let st := setConnectionStatus StatusConnected st in
  match cmapM (fun d => buildProcess (docData d) (docId d)) docs with
  | Normal processes => setItems (sort compareProcesses processes) st
  | Throw _ => st
  end.

(** The error callback of [onSnapshot]. *)
Definition onSnapshotError (st : SyncState) : SyncState :=
  setConnectionStatus StatusError st.

Definition deliver (st : SyncState) (ev : SessionEvent) : SyncState :=
  match ev with
  | SnapshotNext docs => onSnapshotNext docs st
  | SnapshotError => onSnapshotError st
  | AuthenticationFailed => setConnectionStatus StatusError st
  end.

(** The hook over the events of a session.  Without services both
    effects set the error status and return: nothing is subscribed and
    no sign-in is tried.  With services the effect of the hook first
    builds the collection reference, and an exception of [collection]
    leaves the effect: the component is gone. *)
Definition useProcurementData (services : option FirebaseServices)
    (appId : jsstring) (events : list SessionEvent) : Completion SyncState :=
  match services with
  | None => Normal (setConnectionStatus StatusError initialState)
  | Some _ =>
      _ ←! Firestore.collection (collectionSegments appId);
      Normal (foldl deliver initialState events)
  end.

(** Identifiers in descending order: each one sorts at or after the next. *)
Definition descending (ids : list jsstring) : Prop :=
  StronglySorted (fun a b => (localeCompare b a <= 0)%Z) ids.

(** Two processes that the comparison of the sort ranks the same. *)
Definition ranksSame (p q : ProcurementProcess) : bool :=
  (compareProcesses p q <=? 0)%Z && (compareProcesses q p <=? 0)%Z.

End Collation.

End Sync.

(** ** [src/App.tsx]: stage submission, [handleFileUpload] *)

Module WebhookUrls.
Record t : Type := { confirmation : jsstring; delivery : jsstring }.
End WebhookUrls.

Module Upload.
Import Js App Sync.

(** A [File] of the browser; the handler reads its [name] and hands the
    object itself to [fetch]. *)
Record File : Type := { name : jsstring }.

(** What the handler closes over when [App] renders. *)
Record Closure : Type := {
  selectedId : option jsstring;
  services : option FirebaseServices;
  appId : jsstring;
  webhookUrls : WebhookUrls.t;
}.

Record StoreWrite : Type := {
  writeRef : list jsstring;
  writePayload : list (jsstring * JsVal);
}.

Record Request : Type := {
  requestUrl : jsstring;
  requestMethod : jsstring;
  formFile : File;
  formOrderId : jsstring;
  formStage : jsstring;
}.

(** Everything the handler can change: the documents of the backing
    store under their paths, the [uploadingStage] marker of [App], and
    what it emitted (calls of [updateDoc] and [fetch], [console.error],
    [alert]), oldest first. *)
Record World : Type := {
  store : gmap (list jsstring) (gmap jsstring JsVal);
  uploadingStage : option Stage;
  writes : list StoreWrite;
  requests : list Request;
  consoleErrors : list JsError;
  alerts : list jsstring;
}.

Inductive FetchReply : Type :=
| FetchResponse (status : Z)
| FetchRejected.

(** What the outside answers during one run of the handler. *)
Record Env : Type := {
  timestampNow : JsVal;
  firstWriteAcked : bool;
  fetchReply : FetchReply;
  mathRandom : Z;
  secondWriteAcked : bool;
}.

(** *** The state-and-exception monad of the handler *)

Definition M (A : Type) : Type := World → Completion A * World.

Definition ret {A} (a : A) : M A := fun w => (Normal a, w).

Definition bind {A B} (m : M A) (k : A → M B) : M B :=
  fun w => match m w with
           | (Normal a, w') => k a w'
           | (Throw e, w') => (Throw e, w')
           end.

Definition throw {A} (e : JsError) : M A := fun w => (Throw e, w).

Definition liftC {A} (c : Completion A) : M A := fun w => (c, w).

(** [try { body } catch (error) { handler }] *)
Definition tryCatch {A} (body : M A) (handler : JsError → M A) : M A :=
  fun w => match body w with
           | (Normal a, w') => (Normal a, w')
           | (Throw e, w') => handler e w'
           end.

(** [try { body } finally { final }]: [final] runs on both exits, and an
    exception of its own replaces the outcome of [body]. *)
Definition tryFinally {A} (body : M A) (final : M unit) : M A :=
  fun w => match body w with
           | (r, w') => match final w' with
                        | (Normal _, w'') => (r, w'')
                        | (Throw e, w'') => (Throw e, w'')
                        end
           end.

Notation "x ←$ m ; k" := (bind m (fun x => k))
  (at level 20, m at level 100, k at level 200, right associativity).
Notation "m ;;$ k" := (bind m (fun _ => k))
  (at level 100, k at level 200, right associativity).

(** *** The primitives *)

Definition setUploadingStage (s : option Stage) : M unit :=
  fun w => (Normal tt,
            {| store := store w; uploadingStage := s; writes := writes w;
               requests := requests w; consoleErrors := consoleErrors w;
               alerts := alerts w |}).

Definition consoleError (e : JsError) : M unit :=
  fun w => (Normal tt,
            {| store := store w; uploadingStage := uploadingStage w;
               writes := writes w; requests := requests w;
               consoleErrors := consoleErrors w ++ [e]; alerts := alerts w |}).

Definition alert (message : jsstring) : M unit :=
  fun w => (Normal tt,
            {| store := store w; uploadingStage := uploadingStage w;
               writes := writes w; requests := requests w;
               consoleErrors := consoleErrors w; alerts := alerts w ++ [message] |}).

(** [doc(db, ...segments)] of Firestore: the resource path of the
    segments, which for a document has an even number of them. *)
Definition doc (segments : list jsstring) : Completion (list jsstring) :=
  path ←! Firestore.resourcePath segments;
  if Nat.even (List.length path) then Normal path else Throw FirestoreError.

(** The fields of a map value; anything else has none. *)
Definition fieldsOf (v : JsVal) : gmap jsstring JsVal :=
  match v with JObj fields => fields | _ => ∅ end.

(** Writing [v] at a field path below [cur]; a value on the way that is
    no map is replaced by one. *)
Fixpoint setPath (path : list jsstring) (v cur : JsVal) : JsVal :=
  match path with
  | [] => v
  | k :: rest =>
      let fields := fieldsOf cur in
      JObj (<[k := setPath rest v (getProp fields k)]> fields)
  end.

(** One entry of an update payload: the key is a dotted field path. *)
Definition setField (data : gmap jsstring JsVal) (entry : jsstring * JsVal)
    : gmap jsstring JsVal :=
  match setPath (splitOn 46 entry.1) entry.2 (JObj data) with
  | JObj data' => data'
  | _ => data
  end.

(** The partial-field update that [updateDoc] performs on a document. *)
Definition applyUpdate (payload : list (jsstring * JsVal))
    (data : gmap jsstring JsVal) : gmap jsstring JsVal :=
  foldl setField data payload.

(** [await updateDoc(ref, payload)]: the call is issued; it is rejected
    when the document does not exist or when the store does not
    acknowledge it, and otherwise the fields are written. *)
Definition updateDoc (acked : bool) (ref : list jsstring)
    (payload : list (jsstring * JsVal)) : M unit :=
  fun w =>
    let issued := writes w ++ [{| writeRef := ref; writePayload := payload |}] in
    match store w !! ref with
    | Some data =>
        if acked then
          (Normal tt,
           {| store := <[ref := applyUpdate payload data]> (store w);
              uploadingStage := uploadingStage w; writes := issued;
              requests := requests w; consoleErrors := consoleErrors w;
              alerts := alerts w |})
        else
          (Throw FirestoreError,
           {| store := store w; uploadingStage := uploadingStage w;
              writes := issued; requests := requests w;
              consoleErrors := consoleErrors w; alerts := alerts w |})
    | None =>
        (Throw FirestoreError,
         {| store := store w; uploadingStage := uploadingStage w;
            writes := issued; requests := requests w;
            consoleErrors := consoleErrors w; alerts := alerts w |})
    end.

(** [await fetch(url, { method: 'POST', body: formData })]: resolves
    with the status of the response, or rejects with a [TypeError] when
    the transport fails. *)
Definition fetch (reply : FetchReply) (request : Request) : M Z :=
  fun w =>
    let w' := {| store := store w; uploadingStage := uploadingStage w;
                 writes := writes w; requests := requests w ++ [request];
                 consoleErrors := consoleErrors w; alerts := alerts w |} in
    match reply with
    | FetchResponse status => (Normal status, w')
    | FetchRejected => (Throw TypeError, w')
    end.

(** [response.ok]: the status is in the range 200 to 299. *)
Definition responseOk (status : Z) : bool :=
  ((200 <=? status) && (status <=? 299))%Z.

(** *** [Math.random() > 0.7]

    A draw of [Math.random] is a double in the interval from 0 to 1,
    1 excluded, on the grid of the multiples of 2^-53; it is kept as its
    numerator [k], for the double [k / 2^53].  The literal [0.7] denotes
    the double nearest to 7/10, whose numerator on that grid is
    [double_0_7].  Comparing two doubles compares their numerators. *)

Definition doubleGrid : Z := 2 ^ 53.

Definition double_0_7 : Z := 6305039478318694.

Definition isConflictDraw (draw : Z) : bool := (double_0_7 <? draw)%Z.

Definition conflictPlaceholder : jsstring :=
  js "Menge weicht ab (Simulierter Fehler)".

(** The text of the [alert]; its only character outside ASCII is the u
    with diaeresis, code unit 252. *)
Definition uploadErrorMessage : jsstring :=
  js "Beim Upload ist ein Fehler aufgetreten. Bitte pr" ++ [252%N]
  ++ js "fe die Webhook-URL oder die Netzwerkverbindung.".

(** The payload of the first write: the stage goes to [analyzing]. *)
Definition analyzingPayload (stage : Stage) (file : File) (now : JsVal)
    : list (jsstring * JsVal) :=
  [ (stageName stage ++ js ".status", JStr (js "analyzing"));
    (stageName stage ++ js ".fileName", JStr (Sanitizer.sanitizeTextInput (name file)));
    (stageName stage ++ js ".uploadedAt", now) ].

(** The payload of the combined write of the fallback branch. *)
Definition outcomePayload (stage : Stage) (isConflict : bool)
    : list (jsstring * JsVal) :=
  [ (stageName stage ++ js ".status",
     JStr (if isConflict then js "conflict" else js "verified"));
    (stageName stage ++ js ".conflictReason",
     if isConflict then JStr conflictPlaceholder else JNull);
    (js "status",
     JStr (if isConflict then js "conflict"
           else if bool_decide (stage = StageDelivery) then js "completed"
           else js "open")) ].

(** *** The handler *)

(** [selectedId ? sanitizeTextInput(selectedId) : null] *)
Definition sanitizedSelectedId (c : Closure) : option jsstring :=
  match selectedId c with
  | Some s => if truthyStr s then Some (Sanitizer.sanitizeTextInput s) else None
  | None => None
  end.

Definition webhookUrlOf (c : Closure) (stage : Stage) : jsstring :=
  match stage with
  | StageConfirmation => WebhookUrls.confirmation (webhookUrls c)
  | StageDelivery => WebhookUrls.delivery (webhookUrls c)
  end.

(** The arguments of [doc] after [services.db]. *)
Definition docSegments (c : Closure) (sanitizedId : jsstring) : list jsstring :=
  [js "artifacts"; appId c; js "public"; js "data";
   js "procurement_processes"; sanitizedId].

(** The body of the [try] block. *)
Definition submitStage (c : Closure) (env : Env) (stage : Stage) (file : File)
    (sanitizedId webhookUrl : jsstring) : M unit :=
  docRef ←$ liftC (doc (docSegments c sanitizedId));
  updateDoc (firstWriteAcked env) docRef
    (analyzingPayload stage file (timestampNow env)) ;;$
  if truthyStr webhookUrl then
    status ←$ fetch (fetchReply env)
      {| requestUrl := webhookUrl; requestMethod := js "POST"; formFile := file;
         formOrderId := sanitizedId; formStage := stageName stage |};
    if negb (responseOk status) then throw (WebhookStatusError status)
    else ret tt
  else
    let isConflict := isConflictDraw (mathRandom env) in
    updateDoc (secondWriteAcked env) docRef (outcomePayload stage isConflict).

(** [handleFileUpload(event, rawStage)], with [files] standing for
    [event.target.files]. *)
Definition handleFileUpload (c : Closure) (env : Env)
    (files : option (list File)) (rawStage : jsstring) : M unit :=
  let stage := sanitizeStage rawStage in
  let file := files ≫= head in
  match stage, file with
  | Some stage, Some file =>
      match sanitizedSelectedId c, services c with
      | Some sanitizedId, Some _ =>
          if truthyStr sanitizedId then
            let webhookUrl := webhookUrlOf c stage in
            setUploadingStage (Some stage) ;;$
            tryFinally
              (tryCatch
                 (submitStage c env stage file sanitizedId webhookUrl)
                 (fun error => consoleError error ;;$ alert uploadErrorMessage))
              (setUploadingStage None)
          else ret tt
      | _, _ => ret tt
      end
  | _, _ => ret tt
  end.

(** *** The upload controls that [App] renders *)

Inductive StagePanel : Type :=
| PanelBlocked
| PanelSending
| PanelUploadInput (rawStage : jsstring)
| PanelMatched.

(** [processes.find((p) => p.id === selectedId) ?? null] *)
Definition selectedProcess (processes : list ProcurementProcess)
    (selected : option jsstring) : option ProcurementProcess :=
  List.find (fun p => bool_decide (Some (id p) = selected)) processes.

Definition startable (step : gmap jsstring JsVal) : bool :=
  strictEqStr (stepStatus step) (js "pending")
  || strictEqStr (stepStatus step) (js "conflict").

Definition confirmationPanel (p : ProcurementProcess) (uploading : option Stage)
    : StagePanel :=
  if startable (App.confirmation p) then
    if bool_decide (uploading = Some StageConfirmation) then PanelSending
    else PanelUploadInput (js "confirmation")
  else PanelMatched.

Definition deliveryPanel (p : ProcurementProcess) (uploading : option Stage)
    : StagePanel :=
  if negb (strictEqStr (stepStatus (App.confirmation p)) (js "verified"))
  then PanelBlocked
  else if startable (App.delivery p) then
    if bool_decide (uploading = Some StageDelivery) then PanelSending
    else PanelUploadInput (js "delivery")
  else PanelMatched.

Definition panelInput (panel : StagePanel) : list jsstring :=
  match panel with PanelUploadInput rawStage => [rawStage] | _ => [] end.

(** The stage arguments of the file inputs on the screen: there is none
    unless a process is selected. *)
Definition uploadInputs (processes : list ProcurementProcess)
    (selected : option jsstring) (uploading : option Stage) : list jsstring :=
  match selectedProcess processes selected with
  | Some p =>
      panelInput (confirmationPanel p uploading)
      ++ panelInput (deliveryPanel p uploading)
  | None => []
  end.

(** [doc.stage.field] as the store holds it under [ref]. *)
Definition storedStageField (w : World) (ref : list jsstring) (stage : Stage)
    (field : jsstring) : JsVal :=
  match store w !! ref with
  | Some data => getProp (fieldsOf (getProp data (stageName stage))) field
  | None => JUndefined
  end.

(** [doc.field] as the store holds it under [ref]. *)
Definition storedField (w : World) (ref : list jsstring) (field : jsstring) : JsVal :=
  match store w !! ref with
  | Some data => getProp data field
  | None => JUndefined
  end.

End Upload.

(** ** Sample data *)

(** Comparison by code units, left to right, a proper prefix sorting
    first: one comparison that a host may give for [localeCompare]. *)
Fixpoint codeUnitCompare (a b : jsstring) : Z :=
  match a, b with
  | [], [] => 0
  | [], _ :: _ => -1
  | _ :: _, [] => 1
  | x :: a', y :: b' =>
      match (x ?= y)%N with
      | Lt => -1
      | Gt => 1
      | Eq => codeUnitCompare a' b'
      end
  end.

(** The canonical decomposition of the one letter e with acute accent,
    code unit 233, into e and the combining acute accent, 101 and 769. *)
Fixpoint decomposeAcute (s : jsstring) : jsstring :=
  match s with
  | [] => []
  | c :: rest =>
      if (c =? 233)%N then 101%N :: 769%N :: decomposeAcute rest
      else c :: decomposeAcute rest
  end.

(** A comparison that, as the language requires of [localeCompare],
    answers 0 on canonically equivalent strings: here on the two
    spellings of e with acute accent. *)
Definition canonicalCompare (a b : jsstring) : Z :=
  codeUnitCompare (decomposeAcute a) (decomposeAcute b).

(** Two documents whose ids are the two spellings of that letter. *)
Definition composedDoc : Sync.QueryDocumentSnapshot :=
  {| Sync.docId := [233%N]; Sync.docData := {[ js "supplierName" := JStr (js "A") ]} |}.

Definition decomposedDoc : Sync.QueryDocumentSnapshot :=
  {| Sync.docId := [101%N; 769%N];
     Sync.docData := {[ js "supplierName" := JStr (js "B") ]} |}.

(** The documents of the ordering example, in their arrival order. *)
Definition orderingExample : list Sync.QueryDocumentSnapshot :=
  map (fun key => {| Sync.docId := js key; Sync.docData := ∅ |})
      ["PO-002"; "PO-010"; "PO-001"]%string.

(** A stored record whose [status] field disagrees with its stages. *)
Definition staleRecord : gmap jsstring JsVal :=
  {[ js "status" := JStr (js "open");
     js "delivery" := JObj {[ js "status" := JStr (js "conflict") ]} ]}.

(** A record whose [id] is a number. *)
Definition numericIdRecord : gmap jsstring JsVal := {[ js "id" := JNum 42 ]}.

(** The path of the document of process PO-1. *)
Definition samplePath : list jsstring :=
  [js "artifacts"; js "default-app-id"; js "public"; js "data";
   js "procurement_processes"; js "PO-1"].

(** Process PO-1 with a verified order and nothing submitted since. *)
Definition pendingRecord : gmap jsstring JsVal :=
  {[ js "id" := JStr (js "PO-1");
     js "supplierName" := JStr (js "ACME");
     js "status" := JStr (js "open");
     js "order" := JObj {[ js "status" := JStr (js "verified") ]};
     js "confirmation" := JObj {[ js "status" := JStr (js "pending") ]};
     js "delivery" := JObj {[ js "status" := JStr (js "pending") ]} ]}.

Definition sampleWorld : Upload.World :=
  {| Upload.store := {[ samplePath := pendingRecord ]};
     Upload.uploadingStage := None;
     Upload.writes := [];
     Upload.requests := [];
     Upload.consoleErrors := [];
     Upload.alerts := [] |}.

Definition sampleFile : Upload.File := {| Upload.name := js "beleg.pdf" |}.

Definition sampleUrl : jsstring := js "https://n8n.example/webhook/check".

(** PO-1 is selected; the same endpoint, or none, for both stages. *)
Definition closureWith (url : jsstring) : Upload.Closure :=
  {| Upload.selectedId := Some (js "PO-1");
     Upload.services := Some Sync.firebaseServices;
     Upload.appId := js "default-app-id";
     Upload.webhookUrls :=
       {| WebhookUrls.confirmation := url; WebhookUrls.delivery := url |} |}.

Definition envWith (acked : bool) (reply : Upload.FetchReply) (draw : Z)
    : Upload.Env :=
  {| Upload.timestampNow :=
       JObj {[ js "seconds" := JNum 1700000000; js "nanoseconds" := JNum 0 ]};
     Upload.firstWriteAcked := acked;
     Upload.fetchReply := reply;
     Upload.mathRandom := draw;
     Upload.secondWriteAcked := acked |}.

(** [n] evenly spaced draws [j / n] of [Math.random], as numerators on
    the grid; [n] is a power of two up to 2^53. *)
Definition evenDraws (n : nat) : list Z :=
  map (fun j => (Z.of_nat j * (Upload.doubleGrid / Z.of_nat n))%Z) (seq 0 n).

(** How many of the draws the fallback classifier verifies. *)
Definition verifiedAmong (draws : list Z) : nat :=
  List.length (List.filter (fun k => negb (Upload.isConflictDraw k)) draws).

(** ** Proof automation *)

(** Two string literals differ. *)
Ltac js_neq := let H := fresh in intros H; vm_compute in H; discriminate H.

(** Reduces the primitives of the monad and the fields of a world,
    leaving payloads and documents folded. *)
Ltac world_simpl :=
  unfold Upload.bind, Upload.consoleError, Upload.alert,
    Upload.setUploadingStage, Upload.ret;
  cbn [fst snd Upload.store Upload.uploadingStage Upload.writes
       Upload.requests Upload.consoleErrors Upload.alerts].

(** ** [src/App.tsx]: configuration, [getAppId] *)

Module Config.
Import Js.

(** What the build and the page provide: [import.meta.env.VITE_APP_ID]
    and [window.__app_id], each a string or undefined. *)
Record Environment : Type := {
  VITE_APP_ID : option jsstring;
  window_app_id : option jsstring;
}.

Definition DEFAULT_APP_ID : jsstring := js "default-app-id".

Definition getAppId (e : Environment) : jsstring :=
  match VITE_APP_ID e with
  | Some fromEnv =>
      if truthyStr fromEnv then Sanitizer.sanitizeTextInput fromEnv
      else match window_app_id e with
           | Some fromWindow =>
               if truthyStr fromWindow then Sanitizer.sanitizeTextInput fromWindow
               else DEFAULT_APP_ID
           | None => DEFAULT_APP_ID
           end
  | None =>
      match window_app_id e with
      | Some fromWindow =>
          if truthyStr fromWindow then Sanitizer.sanitizeTextInput fromWindow
          else DEFAULT_APP_ID
      | None => DEFAULT_APP_ID
      end
  end.

End Config.

(** ** [src/App.tsx]: the webhook settings and [localStorage] *)

Module Storage.
Import Js.

(** The [localStorage] of the page: its entries, whether reading it
    throws, which writes it refuses by throwing, and the lines written
    with [console.error]. *)
Record Browser : Type := {
  localStorage : gmap jsstring jsstring;
  readable : bool;
  accepts : jsstring → jsstring → bool;
  consoleLog : list jsstring;
}.

Definition logError (message : jsstring) (b : Browser) : Browser :=
  {| localStorage := localStorage b; readable := readable b;
     accepts := accepts b; consoleLog := consoleLog b ++ [message] |}.

(** [window.localStorage.getItem(key) ?? ''] inside [try]; the [catch]
    block logs and returns the empty string. *)
Definition safeGetLocalStorage (key : jsstring) (b : Browser) : jsstring * Browser :=
  if readable b then (default [] (localStorage b !! key), b)
  else ([], logError (js "LocalStorage read failed") b).

(** [window.localStorage.setItem(key, value)] inside [try]; the [catch]
    block logs. *)
Definition safeSetLocalStorage (key value : jsstring) (b : Browser) : Browser :=
  if accepts b key value then
    {| localStorage := <[key := value]> (localStorage b); readable := readable b;
       accepts := accepts b; consoleLog := consoleLog b |}
  else logError (js "LocalStorage write failed") b.

(** [initialWebhookUrls], read when the module loads. *)
Definition initialWebhookUrls (b : Browser) : WebhookUrls.t * Browser :=
  let (fromConf, b1) := safeGetLocalStorage (js "n8n_webhook_conf") b in
  let (fromDel, b2) := safeGetLocalStorage (js "n8n_webhook_del") b1 in
  ({| WebhookUrls.confirmation := fromConf; WebhookUrls.delivery := fromDel |}, b2).

(** [saveWebhooks(urls)]: the new [webhookUrls] state of [App] and the
    browser after the two writes. *)
Definition saveWebhooks (urls : WebhookUrls.t) (b : Browser) : WebhookUrls.t * Browser :=
  let sanitizedConfirmation := Sanitizer.sanitizeTextInput (WebhookUrls.confirmation urls) in
  let sanitizedDelivery := Sanitizer.sanitizeTextInput (WebhookUrls.delivery urls) in
  ({| WebhookUrls.confirmation := sanitizedConfirmation;
      WebhookUrls.delivery := sanitizedDelivery |},
   safeSetLocalStorage (js "n8n_webhook_del") sanitizedDelivery
     (safeSetLocalStorage (js "n8n_webhook_conf") sanitizedConfirmation b)).


End Storage.

(** ** [src/App.tsx]: the filtered list and the counters *)

Module Dashboard.
Import Js App.

Fixpoint startsWith (s prefix : jsstring) : bool :=
  match prefix, s with
  | [], _ => true
  | _ :: _, [] => false
  | x :: prefix', c :: s' => (x =? c)%N && startsWith s' prefix'
  end.

(** [s.includes(needle)] *)
Fixpoint includes (s needle : jsstring) : bool :=
  startsWith s needle
  || match s with
     | [] => false
     | _ :: s' => includes s' needle
     end.

Section Filtering.
(** [String.prototype.toLowerCase] of the host. *)
Variable toLowerCase : jsstring → jsstring.

(** [filteredProcesses]; [filter] is ['all'] or a process status. *)
Definition filteredProcesses (filter : jsstring)
    (processes : list ProcurementProcess) (searchTerm : jsstring)
    : list ProcurementProcess :=
  let sanitized := toLowerCase (Sanitizer.sanitizeTextInput searchTerm) in
  let byStatus :=
    if bool_decide (filter = js "all") then processes
    else List.filter (fun p => strictEqStr (status p) filter) processes in
  if negb (truthyStr sanitized) then byStatus
  else List.filter (fun p => includes (toLowerCase (id p)) sanitized) byStatus.

End Filtering.

Record Stats : Type := {
  total : nat;
  open : nat;
  conflict : nat;
  completed : nat;
}.

(** [processes.filter((p) => p.status === lit).length] *)
Definition countStatus (lit : jsstring) (processes : list ProcurementProcess) : nat :=
  List.length (List.filter (fun p => strictEqStr (status p) lit) processes).

Definition stats (processes : list ProcurementProcess) : Stats :=
  {| total := List.length processes;
     open := countStatus (js "open") processes;
     conflict := countStatus (js "conflict") processes;
     completed := countStatus (js "completed") processes |}.

(** The step of a process that a stage names. *)
Definition stageStep (stage : Stage) (p : ProcurementProcess) : gmap jsstring JsVal :=
  match stage with
  | StageConfirmation => App.confirmation p
  | StageDelivery => App.delivery p
  end.

(** A process whose status is one of the three the type names. *)
Definition knownStatus (p : ProcurementProcess) : bool :=
  strictEqStr (status p) (js "open")
  || strictEqStr (status p) (js "conflict")
  || strictEqStr (status p) (js "completed").

End Dashboard.

(** ** More sample data *)

(** Lower case for the letters A to Z, every other code unit kept: what
    [toLowerCase] does on ASCII text. *)
Definition asciiToLowerCase (s : jsstring) : jsstring :=
  map (fun c => if ((65 <=? c) && (c <=? 90))%N then (c + 32)%N else c) s.

(** A browser whose storage works and is empty. *)
Definition emptyBrowser : Storage.Browser :=
  {| Storage.localStorage := ∅; Storage.readable := true;
     Storage.accepts := fun _ _ => true; Storage.consoleLog := [] |}.

(** A browser whose storage refuses every access. *)
Definition lockedBrowser : Storage.Browser :=
  {| Storage.localStorage := ∅; Storage.readable := false;
     Storage.accepts := fun _ _ => false; Storage.consoleLog := [] |}.

(** A record whose supplier name is a list. *)
Definition listSupplierRecord : gmap jsstring JsVal :=
  {[ js "id" := JStr (js "PO-7"); js "supplierName" := JArr [JStr (js "ACME")] ]}.
(** ** Properties of the sanitizer *)

Section SanitizerFacts.
Import Sanitizer.

Lemma stripMarkup_clean (s : jsstring) : clean (stripMarkup s).
Proof.
  apply Forall_forall. intros c Hc. apply list_elem_of_In in Hc.
  apply filter_In in Hc as [_ Hc]. by apply negb_true_iff.
Qed.

Lemma stripMarkup_fixed (s : jsstring) : clean s → stripMarkup s = s.
Proof.
  induction 1 as [|c s Hc _ IH]; [done|].
  unfold stripMarkup in *. cbn. by rewrite Hc, IH.
Qed.

Lemma trimStart_suffix (s : jsstring) : ∃ ws, s = ws ++ trimStart s.
Proof.
  induction s as [|c s [ws IH]]; [by exists []|]. cbn.
  destruct (isWhiteSpace c).
  - exists (c :: ws). cbn. by f_equal.
  - by exists [].
Qed.

Lemma trimEnd_prefix (s : jsstring) : ∃ ws, s = trimEnd s ++ ws.
Proof.
  destruct (trimStart_suffix (rev s)) as [ws Hws].
  exists (rev ws). unfold trimEnd.
  rewrite <- rev_app_distr, <- Hws. by rewrite rev_involutive.
Qed.

Lemma trimStart_clean (s : jsstring) : clean s → clean (trimStart s).
Proof.
  intros H. destruct (trimStart_suffix s) as [ws Hws].
  unfold clean in *. rewrite Hws in H. by apply Forall_app in H as [_ H].
Qed.

Lemma trimEnd_clean (s : jsstring) : clean s → clean (trimEnd s).
Proof.
  intros H. destruct (trimEnd_prefix s) as [ws Hws].
  unfold clean in *. rewrite Hws in H. by apply Forall_app in H as [H _].
Qed.

Lemma trim_clean (s : jsstring) : clean s → clean (trim s).
Proof. intros H. by apply trimEnd_clean, trimStart_clean. Qed.

Lemma trimStart_startsTrimmed (s : jsstring) : startsTrimmed (trimStart s).
Proof.
  induction s as [|c s IH]; [done|]. cbn.
  destruct (isWhiteSpace c) eqn:E; [done|]. by cbn.
Qed.

Lemma trimStart_fixed (s : jsstring) : startsTrimmed s → trimStart s = s.
Proof. destruct s as [|c s]; [done|]. cbn. by intros ->. Qed.

Lemma trimEnd_startsTrimmed (s : jsstring) :
  startsTrimmed s → startsTrimmed (trimEnd s).
Proof.
  intros H. destruct (trimEnd_prefix s) as [ws Hws].
  destruct (trimEnd s) as [|c t]; [done|].
  rewrite Hws in H. by cbn in *.
Qed.

Lemma trimEnd_idem (s : jsstring) : trimEnd (trimEnd s) = trimEnd s.
Proof.
  unfold trimEnd. rewrite rev_involutive. f_equal.
  apply trimStart_fixed, trimStart_startsTrimmed.
Qed.

Lemma trim_idem (s : jsstring) : trim (trim s) = trim s.
Proof.
  unfold trim.
  rewrite (trimStart_fixed (trimEnd (trimStart s))).
  - apply trimEnd_idem.
  - apply trimEnd_startsTrimmed, trimStart_startsTrimmed.
Qed.

Lemma sanitizeTextInput_clean (x : jsstring) : clean (sanitizeTextInput x).
Proof. apply trim_clean, stripMarkup_clean. Qed.

End SanitizerFacts.

(** C8. Sanitisation is idempotent, and its result contains none of the
    characters less-than (60), greater-than (62), double quote (34),
    single quote (39) and backtick (96). *)
Theorem sanitize_idempotent_and_strips (x : jsstring) :
  Sanitizer.sanitizeTextInput (Sanitizer.sanitizeTextInput x)
    = Sanitizer.sanitizeTextInput x
  ∧ ∀ c, In c (Sanitizer.sanitizeTextInput x) →
      c ≠ 60%N ∧ c ≠ 62%N ∧ c ≠ 34%N ∧ c ≠ 39%N ∧ c ≠ 96%N.
Proof.
  pose proof (sanitizeTextInput_clean x) as Hclean. split.
  - unfold Sanitizer.sanitizeTextInput at 1.
    rewrite (stripMarkup_fixed _ Hclean).
    unfold Sanitizer.sanitizeTextInput. apply trim_idem.
  - intros c Hc.
    unfold Sanitizer.clean in Hclean.
    rewrite Forall_forall in Hclean.
    apply list_elem_of_In, Hclean in Hc.
    unfold Sanitizer.isMarkupChar in Hc.
    repeat (apply orb_false_iff in Hc as [Hc ?]).
    repeat split; intros ->; discriminate.
Qed.

(** ** Properties of [sort] and of the sample comparisons *)

Section CodeUnitCompareFacts.

Lemma codeUnitCompare_flip (a b : jsstring) :
  codeUnitCompare a b = (- codeUnitCompare b a)%Z.
Proof.
  revert b. induction a as [|x a IH]; intros [|y b]; cbn; try done.
  rewrite (N.compare_antisym x y).
  destruct (x ?= y)%N; cbn; auto.
Qed.

Lemma codeUnitCompare_trans (a b c : jsstring) :
  (codeUnitCompare a b <= 0)%Z → (codeUnitCompare b c <= 0)%Z →
  (codeUnitCompare a c <= 0)%Z.
Proof.
  revert b c. induction a as [|x a IH]; intros [|y b] [|z c]; cbn; try lia.
  destruct (x ?= y)%N eqn:Exy; try lia.
  - apply N.compare_eq in Exy as ->. destruct (y ?= z)%N; try lia. apply IH.
  - destruct (y ?= z)%N eqn:Eyz; try lia.
    + apply N.compare_eq in Eyz as <-. rewrite Exy. lia.
    + intros _ _. apply N.compare_lt_iff in Exy. apply N.compare_lt_iff in Eyz.
      assert ((x ?= z)%N = Lt) as ->; [|lia].
      apply N.compare_lt_iff. by etrans.
Qed.

Lemma codeUnitCompare_total (a b : jsstring) :
  (codeUnitCompare a b <= 0)%Z ∨ (codeUnitCompare b a <= 0)%Z.
Proof. rewrite (codeUnitCompare_flip b a). lia. Qed.

Lemma canonicalCompare_trans (a b c : jsstring) :
  (canonicalCompare a b <= 0)%Z → (canonicalCompare b c <= 0)%Z →
  (canonicalCompare a c <= 0)%Z.
Proof. apply codeUnitCompare_trans. Qed.

Lemma canonicalCompare_total (a b : jsstring) :
  (canonicalCompare a b <= 0)%Z ∨ (canonicalCompare b a <= 0)%Z.
Proof. apply codeUnitCompare_total. Qed.

End CodeUnitCompareFacts.

Section SortFacts.
Import Js.
Context {A : Type} (compareFn : A → A → Z).

Lemma insertBy_perm (x : A) (l : list A) :
  Permutation (insertBy compareFn x l) (x :: l).
Proof.
  induction l as [|y l IH]; cbn; [done|].
  destruct (compareFn x y <=? 0)%Z; [done|].
  rewrite IH. apply perm_swap.
Qed.

Lemma sort_perm (l : list A) : Permutation (sort compareFn l) l.
Proof.
  induction l as [|x l IH]; cbn; [done|].
  fold (sort compareFn l). rewrite insertBy_perm. by constructor.
Qed.

(** The order of three elements of which the first belongs between the
    other two. *)
Lemma sort_middle_first (a b c : A) :
  (compareFn b c <= 0)%Z → (0 < compareFn a b)%Z → (compareFn a c <= 0)%Z →
  sort compareFn [a; b; c] = [b; a; c].
Proof.
  intros Hbc Hab Hac.
  apply Z.leb_le in Hbc. apply Z.leb_le in Hac. apply Z.leb_gt in Hab.
  unfold sort. cbn [foldr insertBy]. rewrite Hbc.
  cbn [insertBy]. by rewrite Hab, Hac.
Qed.

Hypothesis compareFn_total :
  ∀ a b, (compareFn a b <= 0)%Z ∨ (compareFn b a <= 0)%Z.
Hypothesis compareFn_trans :
  ∀ a b c, (compareFn a b <= 0)%Z → (compareFn b c <= 0)%Z → (compareFn a c <= 0)%Z.

Lemma insertBy_sorted (x : A) (l : list A) :
  sortedBy compareFn l → sortedBy compareFn (insertBy compareFn x l).
Proof.
  unfold sortedBy. induction 1 as [|y l Hl IH Hy]; cbn.
  - repeat constructor.
  - destruct (compareFn x y <=? 0)%Z eqn:E.
    + apply Z.leb_le in E. constructor; [by constructor|].
      constructor; [done|].
      eapply Forall_impl; [exact Hy|]. intros z Hz. by eapply compareFn_trans.
    + apply Z.leb_gt in E. constructor; [done|].
      eapply Permutation_Forall; [symmetry; apply insertBy_perm|].
      constructor; [|done].
      destruct (compareFn_total x y); [lia|done].
Qed.

Lemma sort_sorted (l : list A) : sortedBy compareFn (sort compareFn l).
Proof.
  induction l as [|x l IH]; cbn; [constructor|]. by apply insertBy_sorted.
Qed.

(** The sort is stable: elements ranked the same keep their order. *)
Lemma insertBy_keeps_ties (p x : A) (l : list A) :
  List.filter (tied compareFn p) (insertBy compareFn x l)
  = List.filter (tied compareFn p) (x :: l).
Proof.
  induction l as [|y l IH]; [done|]. cbn [insertBy].
  destruct (compareFn x y <=? 0)%Z eqn:E; [done|].
  cbn [List.filter] in *. rewrite IH.
  destruct (tied compareFn p x) eqn:Hx, (tied compareFn p y) eqn:Hy; try done.
  exfalso. unfold tied in Hx, Hy.
  apply andb_true_iff in Hx as [_ Hx]. apply andb_true_iff in Hy as [Hy _].
  apply Z.leb_le in Hx, Hy. apply Z.leb_gt in E.
  pose proof (compareFn_trans x p y Hx Hy). lia.
Qed.

Lemma sort_keeps_ties (p : A) (l : list A) :
  List.filter (tied compareFn p) (sort compareFn l)
  = List.filter (tied compareFn p) l.
Proof.
  induction l as [|x l IH]; [done|]. cbn [sort foldr].
  fold (sort compareFn l). rewrite insertBy_keeps_ties.
  cbn [List.filter]. by rewrite IH.
Qed.

End SortFacts.

(** Two sorted rearrangements of one list are equal when the relation
    ranks no two different elements the same. *)
Lemma sorted_rearrangement_unique {X} (R : X → X → Prop) (l1 l2 : list X) :
  StronglySorted R l1 → StronglySorted R l2 → Permutation l1 l2 →
  (∀ x y, x ∈ l1 → y ∈ l1 → R x y → R y x → x = y) →
  l1 = l2.
Proof.
  intros H1. revert l2.
  induction H1 as [|x l1 Hl1 IH Hx]; intros l2 H2 Hp Hanti.
  - by apply Permutation_nil in Hp.
  - destruct H2 as [|y l2 Hl2 Hy].
    + by apply Permutation_sym, Permutation_nil in Hp.
    + assert (x = y) as ->.
      { assert (x ∈ y :: l2) as Hin1 by (rewrite <- Hp; left).
        assert (y ∈ x :: l1) as Hin2 by (rewrite Hp; left).
        apply elem_of_cons in Hin1 as [?|Hin1]; [done|].
        pose proof Hin2 as Hin2'.
        apply elem_of_cons in Hin2 as [?|Hin2]; [done|].
        rewrite Forall_forall in Hx, Hy.
        apply Hanti; [left|done|by apply Hx|by apply Hy]. }
      f_equal. apply IH; [done|by eapply Permutation_cons_inv|].
      intros a b Ha Hb. apply Hanti; by right.
Qed.

Lemma cmapM_Permutation {X Y} (f : X → Completion Y) (l l' : list X) :
  Permutation l l' →
  match cmapM f l, cmapM f l' with
  | Normal ys, Normal ys' => Permutation ys ys'
  | Throw _, Throw _ => True
  | _, _ => False
  end.
Proof.
  induction 1 as [|x l l' _ IH|x y l|l l' l'' _ IH1 _ IH2]; cbn.
  - done.
  - destruct (f x); cbn; [|done].
    destruct (cmapM f l), (cmapM f l'); cbn; try done. by constructor.
  - destruct (f x), (f y); cbn; try done.
    destruct (cmapM f l); cbn; [|done]. apply perm_swap.
  - destruct (cmapM f l), (cmapM f l'), (cmapM f l''); try done.
    by etrans.
Qed.

Section SynchroniserOrder.
Import Js App Sync.
Variable localeCompare : jsstring → jsstring → Z.
Hypothesis localeCompare_total :
  ∀ a b, (localeCompare a b <= 0)%Z ∨ (localeCompare b a <= 0)%Z.
Hypothesis localeCompare_trans :
  ∀ a b c, (localeCompare a b <= 0)%Z → (localeCompare b c <= 0)%Z →
           (localeCompare a c <= 0)%Z.

Lemma compareProcesses_total (a b : ProcurementProcess) :
  (compareProcesses localeCompare a b <= 0)%Z
  ∨ (compareProcesses localeCompare b a <= 0)%Z.
Proof. unfold compareProcesses. apply localeCompare_total. Qed.

Lemma compareProcesses_trans (a b c : ProcurementProcess) :
  (compareProcesses localeCompare a b <= 0)%Z →
  (compareProcesses localeCompare b c <= 0)%Z →
  (compareProcesses localeCompare a c <= 0)%Z.
Proof.
  unfold compareProcesses. intros Hab Hbc.
  by apply (localeCompare_trans _ (App.id b)).
Qed.

Lemma sort_compareProcesses_sorted (ps : list ProcurementProcess) :
  sortedBy (compareProcesses localeCompare) (sort (compareProcesses localeCompare) ps).
Proof. apply sort_sorted; [apply compareProcesses_total|apply compareProcesses_trans]. Qed.

Lemma sort_compareProcesses_descending (ps : list ProcurementProcess) :
  descending localeCompare
    (map App.id (sort (compareProcesses localeCompare) ps)).
Proof.
  unfold descending.
  induction (sort_compareProcesses_sorted ps) as [|p l _ IH Hp];
    cbn; constructor; [done|].
  rewrite Forall_map. eapply Forall_impl; [exact Hp|]. by intros q Hq.
Qed.

Lemma onSnapshotNext_descending docs st :
  descending localeCompare (map App.id (items st)) →
  descending localeCompare
    (map App.id (items (onSnapshotNext localeCompare docs st))).
Proof.
  intros H. unfold onSnapshotNext.
  destruct (cmapM _ docs);
    unfold setItems, setConnectionStatus; cbn [items];
    [apply sort_compareProcesses_descending|done].
Qed.

Lemma deliver_descending events st :
  descending localeCompare (map App.id (items st)) →
  descending localeCompare
    (map App.id (items (foldl (deliver localeCompare) st events))).
Proof.
  revert st. induction events as [|ev events IH]; intros st H; cbn; [done|].
  apply IH. destruct ev; cbn [deliver]; [by apply onSnapshotNext_descending|done..].
Qed.

Lemma useProcurementData_descending services appId events st :
  useProcurementData localeCompare services appId events = Normal st →
  descending localeCompare (map App.id (items st)).
Proof.
  unfold useProcurementData. destruct services as [svc|].
  - destruct (Firestore.collection _); [|done]. cbn. intros [= <-].
    apply deliver_descending. constructor.
  - intros [= <-]. constructor.
Qed.

Lemma onSnapshotNext_Permutation docs docs' st :
  Permutation docs docs' →
  Permutation (items (onSnapshotNext localeCompare docs st))
              (items (onSnapshotNext localeCompare docs' st)).
Proof.
  intros Hp. unfold onSnapshotNext.
  pose proof (cmapM_Permutation
    (fun d => buildProcess (docData d) (docId d)) _ _ Hp) as Hm.
  destruct (cmapM _ docs), (cmapM _ docs');
    unfold setItems, setConnectionStatus; cbn [items]; try done.
  by rewrite !sort_perm.
Qed.

(** The collection after a snapshot is sorted by the comparison of the
    sort. *)
Lemma onSnapshotNext_sorted docs st :
  sortedBy (compareProcesses localeCompare) (items st) →
  sortedBy (compareProcesses localeCompare)
    (items (onSnapshotNext localeCompare docs st)).
Proof.
  intros H. unfold onSnapshotNext.
  destruct (cmapM _ docs);
    unfold setItems, setConnectionStatus; cbn [items];
    [apply sort_compareProcesses_sorted|done].
Qed.

Lemma deliver_sorted events st :
  sortedBy (compareProcesses localeCompare) (items st) →
  sortedBy (compareProcesses localeCompare)
    (items (foldl (deliver localeCompare) st events)).
Proof.
  revert st. induction events as [|ev events IH]; intros st H; cbn; [done|].
  apply IH. destruct ev; cbn [deliver]; [by apply onSnapshotNext_sorted|done..].
Qed.

Lemma useProcurementData_sorted services appId events st :
  useProcurementData localeCompare services appId events = Normal st →
  sortedBy (compareProcesses localeCompare) (items st).
Proof.
  unfold useProcurementData. destruct services as [svc|].
  - destruct (Firestore.collection _); [|done]. cbn. intros [= <-].
    apply deliver_sorted. constructor.
  - intros [= <-]. constructor.
Qed.

End SynchroniserOrder.

(** C7, counterexample.  Under a comparison that answers 0 on the two
    spellings of e with acute accent, as the language requires of
    [localeCompare], the two documents with these ids come out in the
    order in which they arrived: the order depends on the arrival
    order, and in the second arrival order the ids ascend by code
    units. *)
Lemma collation_ties_follow_arrival_order :
  (∀ a b, (canonicalCompare a b <= 0)%Z ∨ (canonicalCompare b a <= 0)%Z)
  ∧ (∀ a b c, (canonicalCompare a b <= 0)%Z → (canonicalCompare b c <= 0)%Z →
              (canonicalCompare a c <= 0)%Z)
  ∧ canonicalCompare [233%N] [101%N; 769%N] = 0%Z
  ∧ map App.id
      (Sync.items (Sync.onSnapshotNext canonicalCompare
                     [composedDoc; decomposedDoc] Sync.initialState))
    = [[233%N]; [101%N; 769%N]]
  ∧ map App.id
      (Sync.items (Sync.onSnapshotNext canonicalCompare
                     [decomposedDoc; composedDoc] Sync.initialState))
    = [[101%N; 769%N]; [233%N]]
  ∧ (codeUnitCompare [101%N; 769%N] [233%N] < 0)%Z.
Proof.
  split; [apply canonicalCompare_total|].
  split; [apply canonicalCompare_trans|].
  repeat split; reflexivity.
Qed.

(** C7, amended.  Let [localeCompare] rank any two strings and be
    transitive, as the comparison of the host is.  After every event,
    a snapshot or a failure, the collection is sorted by id in
    descending order of [localeCompare].
    The collection built from a snapshot is a rearrangement of the
    mapped documents in which processes that the comparison ranks the
    same keep their arrival order; it does not depend on the arrival
    order when the comparison ranks no two different processes the
    same.  When the comparison puts PO-010 after PO-002 and PO-002
    after PO-001, the ids PO-002, PO-010, PO-001 come out as PO-010,
    PO-002, PO-001. *)
Theorem synchroniser_sorts_by_collation
    (localeCompare : jsstring → jsstring → Z)
    (services : option Sync.FirebaseServices) (appId : jsstring)
    (events : list Sync.SessionEvent)
    (docs docs' : list Sync.QueryDocumentSnapshot) (before : Sync.SyncState) :
  (∀ a b, (localeCompare a b <= 0)%Z ∨ (localeCompare b a <= 0)%Z) →
  (∀ a b c, (localeCompare a b <= 0)%Z → (localeCompare b c <= 0)%Z →
            (localeCompare a c <= 0)%Z) →
  Sync.useProcurementData localeCompare services appId events = Normal before →
  let after := Sync.onSnapshotNext localeCompare docs before in
  Sync.descending localeCompare (map App.id (Sync.items before))
  ∧ Sync.descending localeCompare (map App.id (Sync.items after))
  ∧ (∀ processes,
       cmapM (fun d => App.buildProcess (Sync.docData d) (Sync.docId d)) docs
         = Normal processes →
       Permutation (Sync.items after) processes
       ∧ ∀ p, List.filter (Sync.ranksSame localeCompare p) (Sync.items after)
              = List.filter (Sync.ranksSame localeCompare p) processes)
  ∧ (Permutation docs docs' →
     (∀ p q, p ∈ Sync.items after → q ∈ Sync.items after →
             Sync.ranksSame localeCompare p q = true → p = q) →
     Sync.items after
     = Sync.items (Sync.onSnapshotNext localeCompare docs' before))
  ∧ ((0 < localeCompare (js "PO-010") (js "PO-002"))%Z →
     (0 < localeCompare (js "PO-002") (js "PO-001"))%Z →
     map App.id
       (Sync.items (Sync.onSnapshotNext localeCompare orderingExample before))
     = map js ["PO-010"; "PO-002"; "PO-001"]%string).
Proof.
  intros Htotal Htrans Hbefore after.
  pose proof (useProcurementData_descending localeCompare Htotal Htrans
                _ _ _ _ Hbefore) as Hdesc.
  pose proof (useProcurementData_sorted localeCompare Htotal Htrans
                _ _ _ _ Hbefore) as Hsorted.
  split; [exact Hdesc|]. split; [|split; [|split]].
  - by apply onSnapshotNext_descending.
  - intros processes H. subst after. unfold Sync.onSnapshotNext. rewrite H.
    unfold Sync.setItems, Sync.setConnectionStatus. cbn [Sync.items].
    split; [apply sort_perm|]. intros p.
    apply (sort_keeps_ties (Sync.compareProcesses localeCompare)).
    apply compareProcesses_trans, Htrans.
  - intros Hp Hties.
    apply (sorted_rearrangement_unique
             (fun a b => (Sync.compareProcesses localeCompare a b <= 0)%Z)).
    + by apply onSnapshotNext_sorted.
    + by apply onSnapshotNext_sorted.
    + by apply onSnapshotNext_Permutation.
    + intros p q Hp' Hq' Hpq Hqp. apply Hties; [done..|].
      unfold Sync.ranksSame. apply andb_true_iff. split; by apply Z.leb_le.
  - intros H1 H2. unfold Sync.onSnapshotNext.
    set (mapped := cmapM _ orderingExample). vm_compute in mapped. subst mapped.
    unfold Sync.setItems, Sync.setConnectionStatus. cbn [Sync.items].
    assert ((localeCompare (js "PO-002") (js "PO-010") <= 0)%Z) as H3.
    { destruct (Htotal (js "PO-002") (js "PO-010")); [done|lia]. }
    assert ((localeCompare (js "PO-001") (js "PO-002") <= 0)%Z) as H4.
    { destruct (Htotal (js "PO-001") (js "PO-002")); [done|lia]. }
    pose proof (Htrans _ _ _ H4 H3) as H5.
    rewrite sort_middle_first; [reflexivity|exact H5|exact H1|exact H4].
Qed.

(** C7, witness: comparison by code units, the three documents of the
    example and the same three in the reverse arrival order. *)
Lemma synchroniser_sorts_by_collation_witness :
  let after := Sync.onSnapshotNext codeUnitCompare orderingExample
                 Sync.initialState in
  Sync.descending codeUnitCompare (map App.id (Sync.items Sync.initialState))
  ∧ Sync.descending codeUnitCompare (map App.id (Sync.items after))
  ∧ (∀ processes,
       cmapM (fun d => App.buildProcess (Sync.docData d) (Sync.docId d))
         orderingExample = Normal processes →
       Permutation (Sync.items after) processes
       ∧ ∀ p, List.filter (Sync.ranksSame codeUnitCompare p) (Sync.items after)
              = List.filter (Sync.ranksSame codeUnitCompare p) processes)
  ∧ (Permutation orderingExample (rev orderingExample) →
     (∀ p q, p ∈ Sync.items after → q ∈ Sync.items after →
             Sync.ranksSame codeUnitCompare p q = true → p = q) →
     Sync.items after
     = Sync.items (Sync.onSnapshotNext codeUnitCompare (rev orderingExample)
                     Sync.initialState))
  ∧ ((0 < codeUnitCompare (js "PO-010") (js "PO-002"))%Z →
     (0 < codeUnitCompare (js "PO-002") (js "PO-001"))%Z →
     map App.id
       (Sync.items (Sync.onSnapshotNext codeUnitCompare orderingExample
                      Sync.initialState))
     = map js ["PO-010"; "PO-002"; "PO-001"]%string).
Proof.
  apply (synchroniser_sorts_by_collation codeUnitCompare
           (Some Sync.firebaseServices) (js "default-app-id") []
           orderingExample (rev orderingExample) Sync.initialState).
  - apply codeUnitCompare_total.
  - apply codeUnitCompare_trans.
  - reflexivity.
Defined.

(** ** Properties of [buildProcess] *)

Section BuildProcessFacts.
Import Js App.

Lemma getProp_insert_eq (o : gmap jsstring JsVal) k v :
  getProp (<[k := v]> o) k = v.
Proof. unfold getProp. by rewrite lookup_insert_eq. Qed.

Lemma getProp_insert_ne (o : gmap jsstring JsVal) k k' v :
  k ≠ k' → getProp (<[k := v]> o) k' = getProp o k'.
Proof. intros H. unfold getProp. by rewrite lookup_insert_ne. Qed.

Lemma coalesce_object fields d : coalesce (JObj fields) d = JObj fields.
Proof. done. Qed.

Lemma coalesce_string s d : coalesce (JStr s) d = JStr s.
Proof. done. Qed.

Lemma coalesce_nullish v d : nullish v = true → coalesce v d = d.
Proof. unfold coalesce. by intros ->. Qed.

(** The step of a mapped process reads a field from the stored stage
    first and from [defaultStep] otherwise. *)
Lemma spread_lookup (a : gmap jsstring JsVal) v k :
  spread a v !! k = match ownProps v !! k with Some x => Some x | None => a !! k end.
Proof. unfold spread. rewrite lookup_union. by destruct (ownProps v !! k), (a !! k). Qed.

Lemma spread_empty (a : gmap jsstring JsVal) : spread a (JObj ∅) = a.
Proof. unfold spread. cbn. by rewrite (left_id_L ∅ (∪)). Qed.

Lemma sanitizeTextInput_string_or_absent v d :
  stringOrAbsent v = true →
  ∃ s, sanitizeTextInput (coalesce v (JStr d)) = Normal s.
Proof. destruct v; cbn; try done; eauto. Qed.

(** What [buildProcess] returns whenever it returns. *)
Lemma buildProcess_Normal data fallbackId p :
  buildProcess data fallbackId = Normal p →
  status p = coalesce (getProp data (js "status")) (JStr (js "open"))
  ∧ createdAt p = coalesce (getProp data (js "createdAt")) JNull
  ∧ order p = spread defaultStep (coalesce (getProp data (js "order")) (JObj ∅))
  ∧ confirmation p
    = spread defaultStep (coalesce (getProp data (js "confirmation")) (JObj ∅))
  ∧ delivery p
    = spread defaultStep (coalesce (getProp data (js "delivery")) (JObj ∅)).
Proof.
  unfold buildProcess.
  destruct (sanitizeTextInput (coalesce (getProp data (js "id")) _)); [|done].
  destruct (sanitizeTextInput (coalesce (getProp data (js "supplierName")) _));
    [|done].
  cbn. by intros [= <-].
Qed.

End BuildProcessFacts.

(** C1, counterexample.  Mapping a record that carries [status: open] and
    a delivery stage in conflict yields a process whose aggregate status
    is [open], against the precedence rule. *)
Lemma buildProcess_keeps_stale_status :
  ∃ p, App.buildProcess staleRecord (js "PO-1") = Normal p
       ∧ App.status p = JStr (js "open")
       ∧ App.stepStatus (App.delivery p) = JStr (js "conflict")
       ∧ ¬ App.followsPrecedence p.
Proof.
  eexists. split; [reflexivity|]. split; [reflexivity|]. split; [reflexivity|].
  unfold App.followsPrecedence. js_neq.
Qed.

(** C4, counterexample.  [buildProcess] throws a [TypeError] on a record
    whose [id] is a number. *)
Lemma buildProcess_throws_on_numeric_id :
  App.buildProcess numericIdRecord (js "PO-1") = Throw TypeError.
Proof. reflexivity. Qed.

(** C4, amended.  On every record whose [id] and [supplierName] are each
    absent or a string, whatever else it holds, [buildProcess] returns a
    process: a missing status becomes [open]; a missing stage is
    [{status: pending, conflictReason: null, data: null}]; a stage that
    is an object keeps each of its fields and takes the others from
    those defaults. *)
Theorem buildProcess_total_on_string_ids
    (data : gmap jsstring JsVal) (fallbackId : jsstring) :
  App.stringOrAbsent (Js.getProp data (js "id")) = true →
  App.stringOrAbsent (Js.getProp data (js "supplierName")) = true →
  ∃ p, App.buildProcess data fallbackId = Normal p
    ∧ (Js.nullish (Js.getProp data (js "status")) = true →
       App.status p = JStr (js "open"))
    ∧ ∀ stage step,
        (stage, step) ∈ [(js "order", App.order p);
                         (js "confirmation", App.confirmation p);
                         (js "delivery", App.delivery p)] →
        (Js.nullish (Js.getProp data stage) = true →
         step = {[ js "status" := JStr (js "pending");
                   js "conflictReason" := JNull;
                   js "data" := JNull ]})
        ∧ (∀ fields, Js.getProp data stage = JObj fields →
           ∀ k, step !! k = match fields !! k with
                            | Some v => Some v
                            | None => App.defaultStep !! k
                            end).
Proof.
  intros Hid Hsup.
  destruct (sanitizeTextInput_string_or_absent _ fallbackId Hid) as [i Hi].
  destruct (sanitizeTextInput_string_or_absent _ (js "Unbekannt") Hsup) as [s Hs].
  eexists. split.
  { unfold App.buildProcess. rewrite Hi, Hs. reflexivity. }
  cbn [App.status App.order App.confirmation App.delivery]. split.
  { intros H. by apply coalesce_nullish. }
  intros stage step Hin.
  assert (step = Js.spread App.defaultStep (Js.coalesce (Js.getProp data stage) (JObj ∅)))
    as ->.
  { repeat (apply elem_of_cons in Hin as [[= -> ->]|Hin]; [done|]).
    by apply elem_of_nil in Hin. }
  split.
  - intros H. rewrite (coalesce_nullish _ _ H). apply spread_empty.
  - intros fields ->. intros k. rewrite coalesce_object. apply spread_lookup.
Qed.

(** C4, witness: a record without [id], with a partial delivery stage. *)
Lemma buildProcess_total_on_string_ids_witness :
  ∃ p, App.buildProcess staleRecord (js "PO-1") = Normal p
    ∧ (Js.nullish (Js.getProp staleRecord (js "status")) = true →
       App.status p = JStr (js "open"))
    ∧ ∀ stage step,
        (stage, step) ∈ [(js "order", App.order p);
                         (js "confirmation", App.confirmation p);
                         (js "delivery", App.delivery p)] →
        (Js.nullish (Js.getProp staleRecord stage) = true →
         step = {[ js "status" := JStr (js "pending");
                   js "conflictReason" := JNull;
                   js "data" := JNull ]})
        ∧ (∀ fields, Js.getProp staleRecord stage = JObj fields →
           ∀ k, step !! k = match fields !! k with
                            | Some v => Some v
                            | None => App.defaultStep !! k
                            end).
Proof.
  apply (buildProcess_total_on_string_ids staleRecord (js "PO-1")); reflexivity.
Defined.

(** ** Properties of the partial-field update *)

Section UpdateFacts.
Import Js App Upload.

Lemma splitOn_stage_status stage :
  splitOn 46 (stageName stage ++ js ".status") = [stageName stage; js "status"].
Proof. by destruct stage; vm_compute. Qed.

Lemma splitOn_stage_fileName stage :
  splitOn 46 (stageName stage ++ js ".fileName") = [stageName stage; js "fileName"].
Proof. by destruct stage; vm_compute. Qed.

Lemma splitOn_stage_uploadedAt stage :
  splitOn 46 (stageName stage ++ js ".uploadedAt")
  = [stageName stage; js "uploadedAt"].
Proof. by destruct stage; vm_compute. Qed.

Lemma splitOn_stage_conflictReason stage :
  splitOn 46 (stageName stage ++ js ".conflictReason")
  = [stageName stage; js "conflictReason"].
Proof. by destruct stage; vm_compute. Qed.

Lemma splitOn_status : splitOn 46 (js "status") = [js "status"].
Proof. by vm_compute. Qed.

Lemma setField_nested data key s f v :
  splitOn 46 key = [s; f] →
  setField data (key, v)
  = <[s := JObj (<[f := v]> (fieldsOf (getProp data s)))]> data.
Proof. intros H. unfold setField. cbn. by rewrite H. Qed.

Lemma setField_top data key v :
  splitOn 46 key = [key] → setField data (key, v) = <[key := v]> data.
Proof. intros H. unfold setField. cbn. by rewrite H. Qed.

Lemma stageName_ne_status stage : stageName stage ≠ js "status".
Proof. destruct stage; js_neq. Qed.

(** The first write leaves a document whose stage is [analyzing]. *)
Lemma applyUpdate_analyzing stage file now data :
  applyUpdate (analyzingPayload stage file now) data
  = <[stageName stage :=
        JObj (<[js "uploadedAt" := now]>
               (<[js "fileName" := JStr (Sanitizer.sanitizeTextInput (name file))]>
                 (<[js "status" := JStr (js "analyzing")]>
                   (fieldsOf (getProp data (stageName stage))))))]> data.
Proof.
  unfold applyUpdate, analyzingPayload. cbn [foldl].
  rewrite (setField_nested _ _ _ _ _ (splitOn_stage_status stage)).
  rewrite (setField_nested _ _ _ _ _ (splitOn_stage_fileName stage)).
  rewrite (setField_nested _ _ _ _ _ (splitOn_stage_uploadedAt stage)).
  rewrite !getProp_insert_eq. cbn [fieldsOf].
  by rewrite !insert_insert_eq.
Qed.

(** The combined write of the fallback branch. *)
Lemma applyUpdate_outcome stage isConflict data :
  applyUpdate (outcomePayload stage isConflict) data
  = <[js "status" :=
        JStr (if isConflict then js "conflict"
              else if bool_decide (stage = StageDelivery) then js "completed"
              else js "open")]>
      (<[stageName stage :=
           JObj (<[js "conflictReason" :=
                     if isConflict then JStr conflictPlaceholder else JNull]>
                  (<[js "status" :=
                       JStr (if isConflict then js "conflict" else js "verified")]>
                    (fieldsOf (getProp data (stageName stage)))))]> data).
Proof.
  unfold applyUpdate, outcomePayload. cbn [foldl].
  rewrite (setField_nested _ _ _ _ _ (splitOn_stage_status stage)).
  rewrite (setField_nested _ _ _ _ _ (splitOn_stage_conflictReason stage)).
  rewrite (setField_top _ _ _ splitOn_status).
  rewrite !getProp_insert_eq. cbn [fieldsOf].
  by rewrite !insert_insert_eq.
Qed.

(** The status of a stage that was just written, as [buildProcess] maps it. *)
Lemma spread_written_status (a rest : gmap jsstring JsVal) k v w :
  k ≠ js "status" →
  stepStatus (spread a (JObj (<[k := w]> (<[js "status" := v]> rest)))) = v.
Proof.
  intros Hk. unfold stepStatus, getProp. rewrite spread_lookup. cbn.
  rewrite lookup_insert_ne by done. by rewrite lookup_insert_eq.
Qed.

End UpdateFacts.

(** C1, amended.  [buildProcess] hands on the stored [status] field as it
    is, [open] when it is absent, and derives nothing from the stages.
    The combined write of the fallback branch sets the aggregate status
    together with the stage; the process mapped from the document it
    leaves follows the precedence rule whenever the stage that was not
    submitted is not in conflict and, for a confirmation, the delivery
    stage is not verified. *)
Theorem fallback_write_follows_precedence
    (stage : App.Stage) (draw : Z) (data : gmap jsstring JsVal)
    (fallbackId : jsstring) (p : App.ProcurementProcess) :
  App.buildProcess
    (Upload.applyUpdate (Upload.outcomePayload stage (Upload.isConflictDraw draw)) data)
    fallbackId = Normal p →
  (stage = App.StageConfirmation →
     Js.strictEqStr (App.stepStatus (App.delivery p)) (js "conflict") = false
     ∧ Js.strictEqStr (App.stepStatus (App.delivery p)) (js "verified") = false) →
  (stage = App.StageDelivery →
     Js.strictEqStr (App.stepStatus (App.confirmation p)) (js "conflict") = false) →
  App.followsPrecedence p
  ∧ ∀ data' fallbackId' p',
      App.buildProcess data' fallbackId' = Normal p' →
      App.status p' = Js.coalesce (Js.getProp data' (js "status")) (JStr (js "open")).
Proof.
  intros Hp Hconf Hdel. split.
  2: { intros data' fallbackId' p' H. by apply buildProcess_Normal in H as [? _]. }
  apply buildProcess_Normal in Hp as (Hst & _ & _ & Hc & Hd).
  rewrite applyUpdate_outcome in Hst, Hc, Hd.
  rewrite getProp_insert_eq, coalesce_string in Hst.
  unfold App.followsPrecedence. rewrite Hst. f_equal.
  destruct stage.
  - destruct (Hconf eq_refl) as [Hdc Hdv]. clear Hd.
    rewrite getProp_insert_ne, getProp_insert_eq, coalesce_object in Hc
      by js_neq.
    rewrite Hc, spread_written_status by js_neq.
    unfold App.derivedStatus. rewrite Hdc, Hdv.
    by destruct (Upload.isConflictDraw draw).
  - specialize (Hdel eq_refl). clear Hc.
    rewrite getProp_insert_ne, getProp_insert_eq, coalesce_object in Hd
      by js_neq.
    rewrite Hd, spread_written_status by js_neq.
    unfold App.derivedStatus. rewrite Hdel.
    by destruct (Upload.isConflictDraw draw).
Qed.

(** C1, witness: a confirmation submitted on an empty document, the draw
    being 0. *)
Lemma fallback_write_follows_precedence_witness :
  ∃ p,
    App.buildProcess
      (Upload.applyUpdate
         (Upload.outcomePayload App.StageConfirmation (Upload.isConflictDraw 0)) ∅)
      (js "PO-1") = Normal p
    ∧ App.followsPrecedence p
    ∧ ∀ data' fallbackId' p',
        App.buildProcess data' fallbackId' = Normal p' →
        App.status p' = Js.coalesce (Js.getProp data' (js "status")) (JStr (js "open")).
Proof.
  eexists. split; [reflexivity|].
  apply (fallback_write_follows_precedence App.StageConfirmation 0 ∅ (js "PO-1")).
  - reflexivity.
  - intros _. split; reflexivity.
  - intros H. discriminate H.
Defined.

(** ** Properties of [handleFileUpload] *)

Section HandlerFacts.
Import Js App Sync Upload.

(** Past its guards the handler sets the marker and runs the
    [try]/[catch]/[finally] statement. *)
Lemma handleFileUpload_started c env files rawStage stage file sanitizedId svc :
  sanitizeStage rawStage = Some stage →
  files ≫= head = Some file →
  sanitizedSelectedId c = Some sanitizedId →
  truthyStr sanitizedId = true →
  services c = Some svc →
  handleFileUpload c env files rawStage
  = (setUploadingStage (Some stage) ;;$
     tryFinally
       (tryCatch
          (submitStage c env stage file sanitizedId (webhookUrlOf c stage))
          (fun error => consoleError error ;;$ alert uploadErrorMessage))
       (setUploadingStage None)).
Proof.
  intros Hs Hf Hi Ht Hv. unfold handleFileUpload.
  by rewrite Hs, Hf, Hi, Hv, Ht.
Qed.

(** The [catch] block does not throw: the statement completes normally. *)
Lemma tryCatch_alert_normal (body : M unit) w :
  (tryCatch body (fun error => consoleError error ;;$ alert uploadErrorMessage) w).1
  = Normal tt.
Proof.
  unfold tryCatch. destruct (body w) as [[[]|e] w']; done.
Qed.

(** The [finally] block leaves the marker cleared, whatever the body did. *)
Lemma tryFinally_clears_marker (body : M unit) w :
  uploadingStage (tryFinally body (setUploadingStage None) w).2 = None
  ∧ (tryFinally body (setUploadingStage None) w).1 = (body w).1.
Proof. unfold tryFinally. by destruct (body w) as [r w']. Qed.

(** A guard that fails returns at once. *)
Lemma handleFileUpload_unknown_stage c env files rawStage :
  sanitizeStage rawStage = None → handleFileUpload c env files rawStage = ret tt.
Proof. intros H. unfold handleFileUpload. by rewrite H. Qed.

Lemma handleFileUpload_no_file c env files rawStage :
  files ≫= head = None → handleFileUpload c env files rawStage = ret tt.
Proof.
  intros H. unfold handleFileUpload. rewrite H.
  by destruct (sanitizeStage rawStage).
Qed.

Lemma handleFileUpload_no_id c env files rawStage :
  (∀ s, sanitizedSelectedId c = Some s → truthyStr s = false) →
  handleFileUpload c env files rawStage = ret tt.
Proof.
  intros H. unfold handleFileUpload.
  destruct (sanitizeStage rawStage); [|done].
  destruct (files ≫= head); [|done].
  destruct (sanitizedSelectedId c) as [sid|]; [|done].
  rewrite (H sid eq_refl). by destruct (services c).
Qed.

Lemma handleFileUpload_no_services c env files rawStage :
  services c = None → handleFileUpload c env files rawStage = ret tt.
Proof.
  intros H. unfold handleFileUpload. rewrite H.
  destruct (sanitizeStage rawStage); [|done].
  destruct (files ≫= head); [|done].
  by destruct (sanitizedSelectedId c).
Qed.

Lemma sanitizeStage_None rawStage :
  rawStage ≠ js "confirmation" → rawStage ≠ js "delivery" →
  sanitizeStage rawStage = None.
Proof.
  intros H1 H2. unfold sanitizeStage.
  by rewrite !bool_decide_eq_false_2.
Qed.

End HandlerFacts.

(** C10. When the stage name is neither confirmation nor delivery, or no
    file is provided, or no process is selected, or the sanitised id of
    the selected process is empty, or no services are configured, the
    handler returns and leaves the world as it found it: no store write
    is issued and the uploading marker is not set. *)
Theorem guards_reject_without_effect
    (c : Upload.Closure) (env : Upload.Env) (files : option (list Upload.File))
    (rawStage : jsstring) (w : Upload.World) :
  (rawStage ≠ js "confirmation" ∧ rawStage ≠ js "delivery")
  ∨ files = None ∨ files = Some []
  ∨ Upload.selectedId c = None
  ∨ (∃ s, Upload.selectedId c = Some s ∧ Sanitizer.sanitizeTextInput s = [])
  ∨ Upload.services c = None →
  Upload.handleFileUpload c env files rawStage w = (Normal tt, w)
  ∧ Upload.writes (Upload.handleFileUpload c env files rawStage w).2 = Upload.writes w
  ∧ Upload.uploadingStage (Upload.handleFileUpload c env files rawStage w).2
    = Upload.uploadingStage w.
Proof.
  intros H.
  assert (Upload.handleFileUpload c env files rawStage = Upload.ret tt) as ->;
    [|done].
  destruct H as [[H1 H2]|[->|[->|[H|[(s & H1 & H2)|H]]]]].
  - by apply handleFileUpload_unknown_stage, sanitizeStage_None.
  - by apply handleFileUpload_no_file.
  - by apply handleFileUpload_no_file.
  - apply handleFileUpload_no_id. unfold Upload.sanitizedSelectedId.
    by rewrite H.
  - apply handleFileUpload_no_id. unfold Upload.sanitizedSelectedId.
    rewrite H1. destruct (Js.truthyStr s); [|done].
    intros ? [= <-]. by rewrite H2.
  - by apply handleFileUpload_no_services.
Qed.

(** ** The runs of [handleFileUpload] *)

Section RunFacts.
Import Js App Sync Upload.

(** The world in which the [try] block starts. *)
Lemma handleFileUpload_run c env files rawStage stage file sanitizedId svc w :
  sanitizeStage rawStage = Some stage →
  files ≫= head = Some file →
  sanitizedSelectedId c = Some sanitizedId →
  truthyStr sanitizedId = true →
  services c = Some svc →
  handleFileUpload c env files rawStage w
  = tryFinally
      (tryCatch
         (submitStage c env stage file sanitizedId (webhookUrlOf c stage))
         (fun error => consoleError error ;;$ alert uploadErrorMessage))
      (setUploadingStage None)
      (setUploadingStage (Some stage) w).2.
Proof.
  intros Hs Hf Hi Ht Hv.
  by rewrite (handleFileUpload_started _ _ _ _ _ _ _ _ Hs Hf Hi Ht Hv).
Qed.

(** The endpoint is configured and the dispatch fails: the first write
    was made, the request was sent, and the block throws. *)
Lemma submitStage_dispatch_failure c env stage file sid url ref data w :
  truthyStr url = true →
  doc (docSegments c sid) = Normal ref →
  store w !! ref = Some data →
  firstWriteAcked env = true →
  (fetchReply env = FetchRejected
   ∨ ∃ status, fetchReply env = FetchResponse status ∧ responseOk status = false) →
  ∃ e, submitStage c env stage file sid url w
  = (Throw e,
     {| store := <[ref := applyUpdate
                            (analyzingPayload stage file (timestampNow env)) data]>
                   (store w);
        uploadingStage := uploadingStage w;
        writes := writes w
                  ++ [{| writeRef := ref;
                         writePayload :=
                           analyzingPayload stage file (timestampNow env) |}];
        requests := requests w
                    ++ [{| requestUrl := url; requestMethod := js "POST";
                           formFile := file; formOrderId := sid;
                           formStage := stageName stage |}];
        consoleErrors := consoleErrors w; alerts := alerts w |}).
Proof.
  intros Hu Hd Hs Ha Hf.
  unfold submitStage, bind, liftC. rewrite Hd.
  unfold updateDoc at 1. rewrite Hs, Ha, Hu.
  unfold fetch.
  destruct Hf as [->|(status & -> & Hok)].
  - by eexists.
  - rewrite Hok. cbn. by eexists.
Qed.

(** No endpoint is configured and both writes are acknowledged. *)
Lemma submitStage_fallback c env stage file sid url ref data w :
  truthyStr url = false →
  doc (docSegments c sid) = Normal ref →
  store w !! ref = Some data →
  firstWriteAcked env = true →
  secondWriteAcked env = true →
  submitStage c env stage file sid url w
  = (Normal tt,
     {| store := <[ref := applyUpdate
                            (outcomePayload stage (isConflictDraw (mathRandom env)))
                            (applyUpdate
                               (analyzingPayload stage file (timestampNow env)) data)]>
                   (store w);
        uploadingStage := uploadingStage w;
        writes := writes w
                  ++ [{| writeRef := ref;
                         writePayload :=
                           analyzingPayload stage file (timestampNow env) |};
                      {| writeRef := ref;
                         writePayload :=
                           outcomePayload stage (isConflictDraw (mathRandom env)) |}];
        requests := requests w;
        consoleErrors := consoleErrors w; alerts := alerts w |}).
Proof.
  intros Hu Hd Hs Ha1 Ha2.
  unfold submitStage, bind, liftC. rewrite Hd.
  unfold updateDoc. rewrite Hs, Ha1, Hu. cbn.
  rewrite lookup_insert_eq, Ha2. cbn.
  by rewrite insert_insert_eq, <- app_assoc.
Qed.

(** Reading a stage back from a document that was just updated. *)
Lemma stage_field_after_analyzing stage file now data :
  getProp (fieldsOf (getProp (applyUpdate (analyzingPayload stage file now) data)
                             (stageName stage))) (js "status")
  = JStr (js "analyzing").
Proof.
  rewrite applyUpdate_analyzing, getProp_insert_eq. cbn [fieldsOf].
  rewrite !getProp_insert_ne by js_neq. apply getProp_insert_eq.
Qed.

Lemma stage_status_after_outcome stage isConflict data :
  getProp (fieldsOf (getProp (applyUpdate (outcomePayload stage isConflict) data)
                             (stageName stage))) (js "status")
  = JStr (if isConflict then js "conflict" else js "verified").
Proof.
  rewrite applyUpdate_outcome.
  rewrite getProp_insert_ne by (apply not_eq_sym, stageName_ne_status).
  rewrite getProp_insert_eq. cbn [fieldsOf].
  rewrite getProp_insert_ne by js_neq. apply getProp_insert_eq.
Qed.

Lemma stage_reason_after_outcome stage isConflict data :
  getProp (fieldsOf (getProp (applyUpdate (outcomePayload stage isConflict) data)
                             (stageName stage))) (js "conflictReason")
  = if isConflict then JStr conflictPlaceholder else JNull.
Proof.
  rewrite applyUpdate_outcome.
  rewrite getProp_insert_ne by (apply not_eq_sym, stageName_ne_status).
  rewrite getProp_insert_eq. cbn [fieldsOf]. apply getProp_insert_eq.
Qed.

Lemma status_after_analyzing stage file now data :
  getProp (applyUpdate (analyzingPayload stage file now) data) (js "status")
  = getProp data (js "status").
Proof.
  rewrite applyUpdate_analyzing.
  apply getProp_insert_ne, stageName_ne_status.
Qed.

End RunFacts.

(** C6. The endpoint is configured and the dispatch fails, by a response
    outside 2xx or by a failure of the transport.  Then the stage reads
    [analyzing] in the store; the only write the run issued is the one
    that put it there, so nothing rolls it back; the aggregate status of
    the document is as before; and the failure is shown to the user by an
    [alert], after which the handler completes. *)
Theorem dispatch_failure_leaves_stage_analyzing
    (c : Upload.Closure) (env : Upload.Env) (files : option (list Upload.File))
    (rawStage : jsstring) (w : Upload.World)
    (stage : App.Stage) (file : Upload.File) (sanitizedId : jsstring)
    (svc : Sync.FirebaseServices) (ref : list jsstring)
    (data : gmap jsstring JsVal) :
  App.sanitizeStage rawStage = Some stage →
  files ≫= head = Some file →
  Upload.sanitizedSelectedId c = Some sanitizedId →
  Js.truthyStr sanitizedId = true →
  Upload.services c = Some svc →
  Js.truthyStr (Upload.webhookUrlOf c stage) = true →
  Upload.doc (Upload.docSegments c sanitizedId) = Normal ref →
  Upload.store w !! ref = Some data →
  Upload.firstWriteAcked env = true →
  (Upload.fetchReply env = Upload.FetchRejected
   ∨ ∃ status, Upload.fetchReply env = Upload.FetchResponse status
               ∧ Upload.responseOk status = false) →
  let w' := (Upload.handleFileUpload c env files rawStage w).2 in
  Upload.storedStageField w' ref stage (js "status") = JStr (js "analyzing")
  ∧ Upload.writes w'
    = Upload.writes w
      ++ [{| Upload.writeRef := ref;
             Upload.writePayload :=
               Upload.analyzingPayload stage file (Upload.timestampNow env) |}]
  ∧ Upload.storedField w' ref (js "status") = Upload.storedField w ref (js "status")
  ∧ Upload.alerts w' = Upload.alerts w ++ [Upload.uploadErrorMessage]
  ∧ (Upload.handleFileUpload c env files rawStage w).1 = Normal tt.
Proof.
  intros Hs Hf Hi Ht Hv Hu Hd Hst Ha Hr w'. subst w'.
  rewrite (handleFileUpload_run _ _ _ _ _ _ _ _ _ Hs Hf Hi Ht Hv).
  destruct (submitStage_dispatch_failure c env stage file sanitizedId _ ref data
              (Upload.setUploadingStage (Some stage) w).2 Hu Hd Hst Ha Hr)
    as [e He].
  unfold Upload.tryFinally, Upload.tryCatch. rewrite He.
  unfold Upload.storedStageField, Upload.storedField. world_simpl.
  rewrite lookup_insert_eq, Hst.
  rewrite stage_field_after_analyzing, status_after_analyzing.
  done.
Qed.

(** C6, witness: the endpoint answers 500 to a confirmation for PO-1. *)
Lemma dispatch_failure_leaves_stage_analyzing_witness :
  let run := Upload.handleFileUpload (closureWith sampleUrl)
               (envWith true (Upload.FetchResponse 500) 0)
               (Some [sampleFile]) (js "confirmation") sampleWorld in
  Upload.storedStageField run.2 samplePath App.StageConfirmation (js "status")
    = JStr (js "analyzing")
  ∧ Upload.writes run.2
    = Upload.writes sampleWorld
      ++ [{| Upload.writeRef := samplePath;
             Upload.writePayload :=
               Upload.analyzingPayload App.StageConfirmation sampleFile
                 (Upload.timestampNow (envWith true (Upload.FetchResponse 500) 0)) |}]
  ∧ Upload.storedField run.2 samplePath (js "status")
    = Upload.storedField sampleWorld samplePath (js "status")
  ∧ Upload.alerts run.2 = Upload.alerts sampleWorld ++ [Upload.uploadErrorMessage]
  ∧ run.1 = Normal tt.
Proof.
  apply (dispatch_failure_leaves_stage_analyzing
           (closureWith sampleUrl) (envWith true (Upload.FetchResponse 500) 0)
           (Some [sampleFile]) (js "confirmation") sampleWorld
           App.StageConfirmation sampleFile (js "PO-1") Sync.firebaseServices
           samplePath pendingRecord);
    try reflexivity.
  right. exists 500%Z. split; reflexivity.
Defined.

(** C9. Every run of the handler that gets past its guards, and so sets
    the uploading marker, ends with the marker cleared and completes
    normally, whatever the store, the endpoint and the draw do: on
    success, on a failed dispatch and on an exception alike. *)
Theorem submission_always_clears_marker
    (c : Upload.Closure) (env : Upload.Env) (files : option (list Upload.File))
    (rawStage : jsstring) (w : Upload.World)
    (stage : App.Stage) (file : Upload.File) (sanitizedId : jsstring)
    (svc : Sync.FirebaseServices) :
  App.sanitizeStage rawStage = Some stage →
  files ≫= head = Some file →
  Upload.sanitizedSelectedId c = Some sanitizedId →
  Js.truthyStr sanitizedId = true →
  Upload.services c = Some svc →
  Upload.uploadingStage (Upload.handleFileUpload c env files rawStage w).2 = None
  ∧ (Upload.handleFileUpload c env files rawStage w).1 = Normal tt.
Proof.
  intros Hs Hf Hi Ht Hv.
  rewrite (handleFileUpload_run _ _ _ _ _ _ _ _ _ Hs Hf Hi Ht Hv).
  destruct (tryFinally_clears_marker
              (Upload.tryCatch
                 (Upload.submitStage c env stage file sanitizedId
                    (Upload.webhookUrlOf c stage))
                 (fun error => Upload.bind (Upload.consoleError error)
                                 (fun _ => Upload.alert Upload.uploadErrorMessage)))
              (Upload.setUploadingStage (Some stage) w).2) as [H1 H2].
  split; [exact H1|]. rewrite H2. apply tryCatch_alert_normal.
Qed.

(** C9, witness: a fallback run that succeeds, a dispatch answered with
    500, and a first write that the store rejects. *)
Lemma submission_always_clears_marker_witness :
  (let run := Upload.handleFileUpload (closureWith [])
                (envWith true Upload.FetchRejected 0)
                (Some [sampleFile]) (js "confirmation") sampleWorld in
   Upload.uploadingStage run.2 = None ∧ run.1 = Normal tt)
  ∧ (let run := Upload.handleFileUpload (closureWith sampleUrl)
                  (envWith true (Upload.FetchResponse 500) 0)
                  (Some [sampleFile]) (js "confirmation") sampleWorld in
     Upload.uploadingStage run.2 = None ∧ run.1 = Normal tt)
  ∧ (let run := Upload.handleFileUpload (closureWith sampleUrl)
                  (envWith false (Upload.FetchResponse 200) 0)
                  (Some [sampleFile]) (js "delivery") sampleWorld in
     Upload.uploadingStage run.2 = None ∧ run.1 = Normal tt).
Proof.
  split; [|split].
  - apply (submission_always_clears_marker (closureWith []) _ _ _ _
             App.StageConfirmation sampleFile (js "PO-1") Sync.firebaseServices);
      reflexivity.
  - apply (submission_always_clears_marker (closureWith sampleUrl) _ _ _ _
             App.StageConfirmation sampleFile (js "PO-1") Sync.firebaseServices);
      reflexivity.
  - apply (submission_always_clears_marker (closureWith sampleUrl) _ _ _ _
             App.StageDelivery sampleFile (js "PO-1") Sync.firebaseServices);
      reflexivity.
Defined.

(** C10, witness: the handler is called for the order stage. *)
Lemma guards_reject_without_effect_witness :
  let run := Upload.handleFileUpload (closureWith sampleUrl)
               (envWith true (Upload.FetchResponse 200) 0)
               (Some [sampleFile]) (js "order") sampleWorld in
  run = (Normal tt, sampleWorld)
  ∧ Upload.writes run.2 = Upload.writes sampleWorld
  ∧ Upload.uploadingStage run.2 = Upload.uploadingStage sampleWorld.
Proof.
  apply (guards_reject_without_effect (closureWith sampleUrl)
           (envWith true (Upload.FetchResponse 200) 0)
           (Some [sampleFile]) (js "order") sampleWorld).
  left. split; js_neq.
Defined.

(** ** The fallback classifier *)

(** C3, counterexample.  Of 1024 evenly spaced draws the classifier
    verifies 717, seven in ten and not three in ten, and puts the other
    307 in conflict. *)
Lemma fallback_verifies_seven_in_ten :
  verifiedAmong (evenDraws 1024) = 717%nat
  ∧ (List.length (evenDraws 1024) - verifiedAmong (evenDraws 1024) = 307)%nat
  ∧ ¬ (100 * verifiedAmong (evenDraws 1024) ≤ 35 * 1024)%nat.
Proof.
  assert (verifiedAmong (evenDraws 1024) = 717%nat) as -> by (by vm_compute).
  split; [done|]. split; [by vm_compute|]. lia.
Qed.

(** C3, amended.  Without an endpoint, and with both writes
    acknowledged, the stage ends [verified] with a null conflict reason
    exactly when the draw is at most the double 0.7, and otherwise
    [conflict] with the fixed, non-empty placeholder as its reason.  The
    numerator [double_0_7] is that of the double nearest to 7/10, less
    than half a grid step below it, so that the draws at most 0.7 are
    [double_0_7 + 1] of the 2^53 on the grid: about 70% are verified and
    about 30% are put in conflict. *)
Theorem fallback_classifier_outcome
    (c : Upload.Closure) (env : Upload.Env) (files : option (list Upload.File))
    (rawStage : jsstring) (w : Upload.World)
    (stage : App.Stage) (file : Upload.File) (sanitizedId : jsstring)
    (svc : Sync.FirebaseServices) (ref : list jsstring)
    (data : gmap jsstring JsVal) :
  App.sanitizeStage rawStage = Some stage →
  files ≫= head = Some file →
  Upload.sanitizedSelectedId c = Some sanitizedId →
  Js.truthyStr sanitizedId = true →
  Upload.services c = Some svc →
  Js.truthyStr (Upload.webhookUrlOf c stage) = false →
  Upload.doc (Upload.docSegments c sanitizedId) = Normal ref →
  Upload.store w !! ref = Some data →
  Upload.firstWriteAcked env = true →
  Upload.secondWriteAcked env = true →
  let w' := (Upload.handleFileUpload c env files rawStage w).2 in
  ((Upload.mathRandom env <= Upload.double_0_7)%Z →
     Upload.storedStageField w' ref stage (js "status") = JStr (js "verified")
     ∧ Upload.storedStageField w' ref stage (js "conflictReason") = JNull)
  ∧ ((Upload.double_0_7 < Upload.mathRandom env)%Z →
     Upload.storedStageField w' ref stage (js "status") = JStr (js "conflict")
     ∧ Upload.storedStageField w' ref stage (js "conflictReason")
       = JStr Upload.conflictPlaceholder
     ∧ Upload.conflictPlaceholder ≠ [])
  ∧ (0 <= 7 * Upload.doubleGrid - 10 * Upload.double_0_7 < 5)%Z.
Proof.
  intros Hs Hf Hi Ht Hv Hu Hd Hst Ha1 Ha2 w'. subst w'.
  rewrite (handleFileUpload_run _ _ _ _ _ _ _ _ _ Hs Hf Hi Ht Hv).
  unfold Upload.tryFinally, Upload.tryCatch.
  rewrite (submitStage_fallback c env stage file sanitizedId _ ref data
             (Upload.setUploadingStage (Some stage) w).2 Hu Hd Hst Ha1 Ha2).
  unfold Upload.storedStageField. world_simpl.
  rewrite lookup_insert_eq, stage_status_after_outcome, stage_reason_after_outcome.
  unfold Upload.isConflictDraw.
  split; [|split].
  - intros H. apply Z.ltb_ge in H. by rewrite H.
  - intros H. apply Z.ltb_lt in H. rewrite H. repeat split. js_neq.
  - by vm_compute.
Qed.

(** C3, witness: a confirmation for PO-1 with the draw 0. *)
Lemma fallback_classifier_outcome_witness :
  let env := envWith true Upload.FetchRejected 0 in
  let w' := (Upload.handleFileUpload (closureWith []) env (Some [sampleFile])
               (js "confirmation") sampleWorld).2 in
  ((Upload.mathRandom env <= Upload.double_0_7)%Z →
     Upload.storedStageField w' samplePath App.StageConfirmation (js "status")
       = JStr (js "verified")
     ∧ Upload.storedStageField w' samplePath App.StageConfirmation
         (js "conflictReason") = JNull)
  ∧ ((Upload.double_0_7 < Upload.mathRandom env)%Z →
     Upload.storedStageField w' samplePath App.StageConfirmation (js "status")
       = JStr (js "conflict")
     ∧ Upload.storedStageField w' samplePath App.StageConfirmation
         (js "conflictReason") = JStr Upload.conflictPlaceholder
     ∧ Upload.conflictPlaceholder ≠ [])
  ∧ (0 <= 7 * Upload.doubleGrid - 10 * Upload.double_0_7 < 5)%Z.
Proof.
  apply (fallback_classifier_outcome (closureWith [])
           (envWith true Upload.FetchRejected 0) (Some [sampleFile])
           (js "confirmation") sampleWorld App.StageConfirmation sampleFile
           (js "PO-1") Sync.firebaseServices samplePath pendingRecord);
    reflexivity.
Defined.

(** ** The connection state and the collection *)

(** C5, counterexample.  A notification with one document followed by a
    failure of the listener leaves the connection state [error] and the
    collection with its one process. *)
Lemma error_state_keeps_last_snapshot :
  ∃ st,
    Sync.useProcurementData codeUnitCompare (Some Sync.firebaseServices)
      (js "default-app-id")
      [Sync.SnapshotNext
         [{| Sync.docId := js "PO-1"; Sync.docData := pendingRecord |}];
       Sync.SnapshotError] = Normal st
    ∧ Sync.connectionStatus st = Sync.StatusError
    ∧ map App.id (Sync.items st) = [js "PO-1"]
    ∧ Sync.items st ≠ [].
Proof.
  eexists. split; [reflexivity|]. split; [reflexivity|]. split; [reflexivity|].
  intros H. discriminate H.
Qed.

(** C5, amended.  Without a configuration the connection state is
    [error] and the collection is empty, whatever happens afterwards.  A
    failure of the subscription, like a failed sign-in, sets the state
    to [error] and leaves the collection as it was: the collection is
    empty if no snapshot was delivered before. *)
Theorem error_state_collection
    (localeCompare : jsstring → jsstring → Z) (appId : jsstring)
    (events : list Sync.SessionEvent) (st : Sync.SyncState) :
  Sync.useProcurementData localeCompare None appId events
    = Normal {| Sync.connectionStatus := Sync.StatusError; Sync.items := [] |}
  ∧ Sync.deliver localeCompare st Sync.SnapshotError
    = {| Sync.connectionStatus := Sync.StatusError; Sync.items := Sync.items st |}
  ∧ Sync.deliver localeCompare st Sync.AuthenticationFailed
    = {| Sync.connectionStatus := Sync.StatusError; Sync.items := Sync.items st |}
  ∧ (Forall (fun ev => ∀ docs, ev ≠ Sync.SnapshotNext docs) events →
     ∀ svc st', Sync.useProcurementData localeCompare (Some svc) appId events
                = Normal st' →
                Sync.items st' = []).
Proof.
  split; [done|]. split; [done|]. split; [done|].
  intros Hev svc st'. unfold Sync.useProcurementData.
  destruct (Firestore.collection _); [|done]. cbn. intros [= <-].
  assert (∀ st0, Sync.items (foldl (Sync.deliver localeCompare) st0 events)
                 = Sync.items st0) as H; [|by rewrite H].
  induction Hev as [|ev events Hev _ IH]; intros st0; cbn; [done|].
  rewrite IH. destruct ev as [docs| |]; [by destruct (Hev docs)|done..].
Qed.

(** ** The gate on the delivery stage *)

Section GateFacts.
Import Js App Sync Upload.

(** The documents of the store after a run: untouched, or one document
    updated by the first write, or by both. *)
Lemma submitStage_store c env stage file sid url w :
  store (submitStage c env stage file sid url w).2 = store w
  ∨ ∃ ref data,
      store w !! ref = Some data
      ∧ (store (submitStage c env stage file sid url w).2
         = <[ref := applyUpdate (analyzingPayload stage file (timestampNow env))
                      data]> (store w)
         ∨ store (submitStage c env stage file sid url w).2
           = <[ref := applyUpdate
                        (outcomePayload stage (isConflictDraw (mathRandom env)))
                        (applyUpdate
                           (analyzingPayload stage file (timestampNow env)) data)]>
               (store w)).
Proof.
  unfold submitStage, bind, liftC, updateDoc, fetch.
  destruct (doc (docSegments c sid)) as [ref|e]; [|by left].
  destruct (store w !! ref) as [data|] eqn:Hst; [|by left].
  destruct (firstWriteAcked env); [|by left].
  right. exists ref, data. split; [done|].
  destruct (truthyStr url).
  - left. destruct (fetchReply env) as [status|]; [|done].
    by destruct (negb (responseOk status)).
  - cbn [store]. rewrite lookup_insert_eq.
    destruct (secondWriteAcked env); [right|by left].
    cbn [snd store]. by rewrite insert_insert_eq.
Qed.

Lemma handleFileUpload_store c env files rawStage w :
  store (handleFileUpload c env files rawStage w).2 = store w
  ∨ ∃ stage file ref data,
      sanitizeStage rawStage = Some stage
      ∧ store w !! ref = Some data
      ∧ (store (handleFileUpload c env files rawStage w).2
         = <[ref := applyUpdate (analyzingPayload stage file (timestampNow env))
                      data]> (store w)
         ∨ store (handleFileUpload c env files rawStage w).2
           = <[ref := applyUpdate
                        (outcomePayload stage (isConflictDraw (mathRandom env)))
                        (applyUpdate
                           (analyzingPayload stage file (timestampNow env)) data)]>
               (store w)).
Proof.
  unfold handleFileUpload.
  destruct (sanitizeStage rawStage) as [stage|]; [|by left].
  destruct (files ≫= head) as [file|]; [|by left].
  destruct (sanitizedSelectedId c) as [sid|]; [|by left].
  destruct (services c); [|by left].
  destruct (truthyStr sid); [|by left].
  assert (store (bind (setUploadingStage (Some stage))
                   (fun _ => tryFinally
                      (tryCatch (submitStage c env stage file sid (webhookUrlOf c stage))
                         (fun error => consoleError error ;;$ alert uploadErrorMessage))
                      (setUploadingStage None)) w).2
          = store (submitStage c env stage file sid (webhookUrlOf c stage)
                     (setUploadingStage (Some stage) w).2).2) as ->.
  { unfold bind at 1. unfold setUploadingStage at 1.
    cbn [fst snd]. unfold tryFinally, tryCatch.
    by destruct (submitStage _ _ _ _ _ _ _) as [[[]|e] w1]. }
  destruct (submitStage_store c env stage file sid (webhookUrlOf c stage)
              (setUploadingStage (Some stage) w).2)
    as [H|(ref & data & Hst & H)]; [by left|].
  right. by exists stage, file, ref, data.
Qed.

(** A confirmation write does not reach the delivery stage. *)
Lemma delivery_after_confirmation_writes file now isConflict data :
  getProp (applyUpdate (analyzingPayload StageConfirmation file now) data)
    (js "delivery") = getProp data (js "delivery")
  ∧ getProp (applyUpdate (outcomePayload StageConfirmation isConflict)
               (applyUpdate (analyzingPayload StageConfirmation file now) data))
      (js "delivery") = getProp data (js "delivery").
Proof.
  rewrite applyUpdate_outcome, applyUpdate_analyzing.
  by rewrite !getProp_insert_ne by js_neq.
Qed.

Lemma sanitizeStage_confirmation :
  sanitizeStage (js "confirmation") = Some StageConfirmation.
Proof. reflexivity. Qed.

End GateFacts.

(** C2, counterexample.  The confirmation of PO-1 is pending and the
    handler is called for the delivery stage: it issues the write, and
    the delivery stage goes from [pending] to [analyzing] in the store. *)
Lemma handler_accepts_delivery_before_confirmation :
  let w' := (Upload.handleFileUpload (closureWith sampleUrl)
               (envWith true (Upload.FetchResponse 200) 0)
               (Some [sampleFile]) (js "delivery") sampleWorld).2 in
  Upload.storedStageField sampleWorld samplePath App.StageConfirmation (js "status")
    = JStr (js "pending")
  ∧ Upload.storedStageField sampleWorld samplePath App.StageDelivery (js "status")
    = JStr (js "pending")
  ∧ Upload.storedStageField w' samplePath App.StageDelivery (js "status")
    = JStr (js "analyzing")
  ∧ Upload.writes w'
    = [{| Upload.writeRef := samplePath;
          Upload.writePayload :=
            Upload.analyzingPayload App.StageDelivery sampleFile
              (Upload.timestampNow (envWith true (Upload.FetchResponse 200) 0)) |}].
Proof. repeat split; reflexivity. Qed.

(** C2, amended.  For a selected process whose confirmation is not
    verified, [App] renders the delivery stage as blocked and offers no
    file input for it: a submission can only be started for the
    confirmation stage, and such a run leaves the delivery stage of every
    stored document as it was.  The handler itself does not look at the
    confirmation status. *)
Theorem delivery_upload_not_offered_before_confirmation
    (processes : list App.ProcurementProcess) (c : Upload.Closure)
    (uploading : option App.Stage) (p : App.ProcurementProcess) :
  Upload.selectedProcess processes (Upload.selectedId c) = Some p →
  Js.strictEqStr (App.stepStatus (App.confirmation p)) (js "verified") = false →
  Upload.deliveryPanel p uploading = Upload.PanelBlocked
  ∧ ∀ rawStage,
      rawStage ∈ Upload.uploadInputs processes (Upload.selectedId c) uploading →
      rawStage = js "confirmation"
      ∧ ∀ env files w ref,
          Upload.storedField
            (Upload.handleFileUpload c env files rawStage w).2 ref (js "delivery")
          = Upload.storedField w ref (js "delivery").
Proof.
  intros Hsel Hconf.
  assert (Upload.deliveryPanel p uploading = Upload.PanelBlocked) as Hpanel.
  { unfold Upload.deliveryPanel. by rewrite Hconf. }
  split; [done|]. intros rawStage Hin.
  assert (rawStage = js "confirmation") as ->.
  { unfold Upload.uploadInputs in Hin. rewrite Hsel, Hpanel in Hin.
    cbn [Upload.panelInput] in Hin. rewrite app_nil_r in Hin.
    unfold Upload.confirmationPanel in Hin.
    destruct (Upload.startable _); [|by apply elem_of_nil in Hin].
    destruct (bool_decide _); [by apply elem_of_nil in Hin|].
    by apply list_elem_of_singleton in Hin. }
  split; [done|]. intros env files w ref.
  unfold Upload.storedField.
  destruct (handleFileUpload_store c env files (js "confirmation") w)
    as [->|(stage & file & ref' & data & Hs & Hst & H)]; [done|].
  rewrite sanitizeStage_confirmation in Hs. injection Hs as <-.
  destruct (delivery_after_confirmation_writes file (Upload.timestampNow env)
              (Upload.isConflictDraw (Upload.mathRandom env)) data) as [H1 H2].
  destruct (decide (ref' = ref)) as [->|Hne].
  - rewrite Hst. destruct H as [-> | ->]; by rewrite lookup_insert_eq.
  - destruct H as [-> | ->]; by rewrite lookup_insert_ne.
Qed.

(** C2, witness: PO-1 as the store holds it, selected, nothing in flight. *)
Lemma delivery_upload_not_offered_before_confirmation_witness :
  ∃ p, App.buildProcess pendingRecord (js "PO-1") = Normal p
    ∧ Upload.deliveryPanel p None = Upload.PanelBlocked
    ∧ ∀ rawStage,
        rawStage ∈ Upload.uploadInputs [p] (Upload.selectedId (closureWith [])) None →
        rawStage = js "confirmation"
        ∧ ∀ env files w ref,
            Upload.storedField
              (Upload.handleFileUpload (closureWith []) env files rawStage w).2
              ref (js "delivery")
            = Upload.storedField w ref (js "delivery").
Proof.
  eexists. split; [reflexivity|].
  apply (delivery_upload_not_offered_before_confirmation _ (closureWith []) None);
    reflexivity.
Defined.

(** * Further properties of the code

    ** The sanitizer *)

Section SanitizerMore.
Import Sanitizer.

Lemma stripMarkup_sublist (s : jsstring) : stripMarkup s `sublist_of` s.
Proof.
  induction s as [|c s IH]; [done|]. unfold stripMarkup in *. cbn.
  destruct (negb (isMarkupChar c)); by constructor.
Qed.

Lemma trim_sublist (s : jsstring) : trim s `sublist_of` s.
Proof.
  unfold trim.
  destruct (trimStart_suffix s) as [ws Hws].
  destruct (trimEnd_prefix (trimStart s)) as [ws' Hws'].
  rewrite Hws at 2. apply sublist_inserts_l.
  rewrite Hws' at 2. by apply sublist_inserts_r.
Qed.

Lemma sanitizeTextInput_ends_trimmed (x : jsstring) :
  startsTrimmed (sanitizeTextInput x) ∧ startsTrimmed (rev (sanitizeTextInput x)).
Proof.
  unfold sanitizeTextInput, trim. split.
  - apply trimEnd_startsTrimmed, trimStart_startsTrimmed.
  - unfold trimEnd. rewrite rev_involutive. apply trimStart_startsTrimmed.
Qed.

Lemma sanitizeTextInput_fixed (x : jsstring) :
  clean x → startsTrimmed x → startsTrimmed (rev x) → sanitizeTextInput x = x.
Proof.
  intros Hc Hs He. unfold sanitizeTextInput, trim, trimEnd.
  rewrite (stripMarkup_fixed _ Hc), (trimStart_fixed _ Hs), (trimStart_fixed _ He).
  apply rev_involutive.
Qed.

Lemma sanitizeTextInput_again (x : jsstring) :
  sanitizeTextInput (sanitizeTextInput x) = sanitizeTextInput x.
Proof.
  apply sanitizeTextInput_fixed;
    [apply sanitizeTextInput_clean | apply sanitizeTextInput_ends_trimmed..].
Qed.

End SanitizerMore.

(** X1.  Sanitising only removes characters: the result is a
    subsequence of the input, in the same order, and is never longer. *)
Theorem sanitize_only_removes (x : jsstring) :
  Sanitizer.sanitizeTextInput x `sublist_of` x
  ∧ (List.length (Sanitizer.sanitizeTextInput x) ≤ List.length x)%nat.
Proof.
  assert (Sanitizer.sanitizeTextInput x `sublist_of` x) as H.
  { unfold Sanitizer.sanitizeTextInput.
    etrans; [apply trim_sublist|apply stripMarkup_sublist]. }
  split; [done|]. by apply sublist_length.
Qed.

(** X2.  The strings that sanitising leaves alone are exactly those
    that hold no markup character and neither begin nor end with white
    space; every sanitised string is one of them. *)
Theorem sanitize_fixed_points (x : jsstring) :
  (Sanitizer.sanitizeTextInput x = x
   ↔ Forall (fun c => Sanitizer.isMarkupChar c = false) x
     ∧ (∀ c, head x = Some c → Sanitizer.isWhiteSpace c = false)
     ∧ (∀ c, last x = Some c → Sanitizer.isWhiteSpace c = false))
  ∧ (∀ c, head (Sanitizer.sanitizeTextInput x) = Some c →
          Sanitizer.isWhiteSpace c = false)
  ∧ (∀ c, last (Sanitizer.sanitizeTextInput x) = Some c →
          Sanitizer.isWhiteSpace c = false).
Proof.
  assert (∀ y : jsstring,
    Sanitizer.startsTrimmed y ↔ ∀ c, head y = Some c → Sanitizer.isWhiteSpace c = false)
    as Hhead.
  { intros [|c y]; cbn; split; try done.
    - by intros H c' [= <-].
    - intros H. by apply H. }
  assert (∀ y : jsstring,
    Sanitizer.startsTrimmed (rev y)
    ↔ ∀ c, last y = Some c → Sanitizer.isWhiteSpace c = false) as Hlast.
  { intros y. rewrite Hhead.
    replace (rev y) with (reverse y) by (symmetry; apply rev_alt).
    by rewrite head_reverse. }
  destruct (sanitizeTextInput_ends_trimmed x) as [Hs He].
  split; [|split; [by apply Hhead|by apply Hlast]].
  split.
  - intros Hx. rewrite <- Hx. split; [apply sanitizeTextInput_clean|].
    split; [by apply Hhead|by apply Hlast].
  - intros (Hc & H1 & H2).
    apply sanitizeTextInput_fixed; [done|by apply Hhead|by apply Hlast].
Qed.

(** ** [buildProcess] and the synchroniser *)

Section SyncMore.
Import Js App Sync.

Lemma buildProcess_returns data fallbackId :
  stringOrAbsent (getProp data (js "id")) = true →
  stringOrAbsent (getProp data (js "supplierName")) = true →
  ∃ p, buildProcess data fallbackId = Normal p.
Proof.
  intros Hid Hsup.
  destruct (sanitizeTextInput_string_or_absent _ fallbackId Hid) as [i Hi].
  destruct (sanitizeTextInput_string_or_absent _ (js "Unbekannt") Hsup) as [s Hs].
  eexists. unfold buildProcess. rewrite Hi, Hs. reflexivity.
Qed.

Lemma buildProcess_throws data fallbackId :
  stringOrAbsent (getProp data (js "id")) = false
  ∨ stringOrAbsent (getProp data (js "supplierName")) = false →
  buildProcess data fallbackId = Throw TypeError.
Proof.
  unfold buildProcess. intros [H|H].
  - destruct (getProp data (js "id")); done.
  - destruct (getProp data (js "id")), (getProp data (js "supplierName")); done.
Qed.

Lemma buildProcess_sanitized data fallbackId p :
  buildProcess data fallbackId = Normal p →
  Sanitizer.sanitizeTextInput (App.id p) = App.id p
  ∧ Sanitizer.sanitizeTextInput (supplierName p) = supplierName p.
Proof.
  unfold buildProcess, sanitizeTextInput.
  destruct (coalesce (getProp data (js "id")) _); try done.
  destruct (coalesce (getProp data (js "supplierName")) _); try done.
  cbn. intros [= <-]. cbn. split; apply sanitizeTextInput_again.
Qed.

Lemma cmapM_Forall {X Y} (f : X → Completion Y) (P : Y → Prop) l ys :
  (∀ x y, f x = Normal y → P y) → cmapM f l = Normal ys → Forall P ys.
Proof.
  intros Hf. revert ys. induction l as [|x l IH]; cbn; intros ys.
  - intros [= <-]. constructor.
  - destruct (f x) as [y|] eqn:Hx; [|done]. cbn.
    destruct (cmapM f l) as [ys'|]; [|done]. cbn. intros [= <-].
    constructor; eauto.
Qed.

Lemma cmapM_Throw {X Y} (f : X → Completion Y) l x e :
  x ∈ l → f x = Throw e → ∃ e', cmapM f l = Throw e'.
Proof.
  intros Hin Hx. induction Hin as [x l|x x' l _ IH]; cbn.
  - rewrite Hx. by eexists.
  - destruct (f x'); [|by eexists]. cbn.
    destruct (IH Hx) as [e' ->]. by eexists.
Qed.

Lemma cmapM_Normal {X Y} (f : X → Completion Y) l :
  Forall (fun x => ∃ y, f x = Normal y) l →
  ∃ ys, cmapM f l = Normal ys ∧ List.length ys = List.length l.
Proof.
  induction 1 as [|x l [y Hy] _ (ys & Hys & Hlen)]; cbn.
  - by exists [].
  - rewrite Hy, Hys. cbn. exists (y :: ys). split; [done|]. cbn. by rewrite Hlen.
Qed.

End SyncMore.

(** X4.  [buildProcess] throws exactly on the records whose [id] or
    [supplierName] is neither absent nor a string, and what it throws is
    a [TypeError]. *)
Theorem buildProcess_throws_exactly
    (data : gmap jsstring JsVal) (fallbackId : jsstring) :
  ((∃ e, App.buildProcess data fallbackId = Throw e)
   ↔ App.stringOrAbsent (Js.getProp data (js "id")) = false
     ∨ App.stringOrAbsent (Js.getProp data (js "supplierName")) = false)
  ∧ ∀ e, App.buildProcess data fallbackId = Throw e → e = TypeError.
Proof.
  destruct (App.stringOrAbsent (Js.getProp data (js "id"))) eqn:Hid;
    [destruct (App.stringOrAbsent (Js.getProp data (js "supplierName"))) eqn:Hsup|].
  - destruct (buildProcess_returns data fallbackId Hid Hsup) as [p Hp].
    rewrite Hp. split; [|done]. split; [by intros [e ?]|by intros [?|?]].
  - rewrite (buildProcess_throws data fallbackId) by (by right).
    split; [|by intros e [= <-]]. split; [by right|by eexists].
  - rewrite (buildProcess_throws data fallbackId) by (by left).
    split; [|by intros e [= <-]]. split; [by left|by eexists].
Qed.

(** Every process of the collection went through the sanitizer. *)
Lemma useProcurementData_sanitised
    (localeCompare : jsstring → jsstring → Z)
    (services : option Sync.FirebaseServices) (appId : jsstring)
    (events : list Sync.SessionEvent) (st : Sync.SyncState) :
  Sync.useProcurementData localeCompare services appId events = Normal st →
  Forall (fun p =>
            Sanitizer.sanitizeTextInput (App.id p) = App.id p
            ∧ Sanitizer.sanitizeTextInput (App.supplierName p) = App.supplierName p)
         (Sync.items st).
Proof.
  unfold Sync.useProcurementData.
  destruct services as [svc|]; [|intros [= <-]; constructor].
  destruct (Firestore.collection _); [|done]. cbn. intros [= <-].
  assert (∀ st,
    Forall (fun p =>
              Sanitizer.sanitizeTextInput (App.id p) = App.id p
              ∧ Sanitizer.sanitizeTextInput (App.supplierName p) = App.supplierName p)
           (Sync.items st) →
    Forall (fun p =>
              Sanitizer.sanitizeTextInput (App.id p) = App.id p
              ∧ Sanitizer.sanitizeTextInput (App.supplierName p) = App.supplierName p)
           (Sync.items (foldl (Sync.deliver localeCompare) st events))) as H.
  { induction events as [|ev events IH]; intros st Hst; cbn; [done|].
    apply IH. destruct ev as [docs| |]; cbn; [|done..].
    unfold Sync.onSnapshotNext.
    destruct (cmapM _ docs) as [ps|] eqn:Hps;
      unfold Sync.setItems, Sync.setConnectionStatus; cbn [Sync.items]; [|done].
    rewrite (sort_perm (Sync.compareProcesses localeCompare) ps).
    eapply cmapM_Forall; [|exact Hps].
    intros d p Hp. exact (buildProcess_sanitized _ _ _ Hp). }
  apply H. constructor.
Qed.

(** X5.  Whatever events arrive and however the host compares strings,
    every process in the collection carries an [id] and a
    [supplierName] that sanitising leaves alone: no markup character,
    no white space at either end. *)
Theorem collection_holds_sanitised_names
    (localeCompare : jsstring → jsstring → Z)
    (services : option Sync.FirebaseServices) (appId : jsstring)
    (events : list Sync.SessionEvent) (st : Sync.SyncState) :
  Sync.useProcurementData localeCompare services appId events = Normal st →
  Forall (fun p =>
            Sanitizer.sanitizeTextInput (App.id p) = App.id p
            ∧ Sanitizer.sanitizeTextInput (App.supplierName p) = App.supplierName p)
         (Sync.items st).
Proof. apply useProcurementData_sanitised. Qed.

(** X5, witness: the session in which the snapshot of PO-1 arrives. *)
Lemma collection_holds_sanitised_names_witness :
  ∃ st,
    Sync.useProcurementData codeUnitCompare (Some Sync.firebaseServices)
      (js "default-app-id")
      [Sync.SnapshotNext
         [{| Sync.docId := js " <PO-1> "; Sync.docData := ∅ |}]] = Normal st
    ∧ Forall (fun p =>
                Sanitizer.sanitizeTextInput (App.id p) = App.id p
                ∧ Sanitizer.sanitizeTextInput (App.supplierName p)
                  = App.supplierName p)
             (Sync.items st).
Proof.
  eexists. split; [reflexivity|].
  apply (collection_holds_sanitised_names codeUnitCompare
           (Some Sync.firebaseServices) (js "default-app-id")
           [Sync.SnapshotNext
              [{| Sync.docId := js " <PO-1> "; Sync.docData := ∅ |}]]).
  reflexivity.
Defined.

(** X6.  One document whose [id] or [supplierName] is neither absent
    nor a string spoils its whole notification: the collection stays as
    it was, while the connection state is set to connected. *)
Theorem malformed_document_blocks_snapshot
    (localeCompare : jsstring → jsstring → Z)
    (docs : list Sync.QueryDocumentSnapshot) (st : Sync.SyncState)
    (d : Sync.QueryDocumentSnapshot) :
  d ∈ docs →
  App.stringOrAbsent (Js.getProp (Sync.docData d) (js "id")) = false
  ∨ App.stringOrAbsent (Js.getProp (Sync.docData d) (js "supplierName")) = false →
  Sync.onSnapshotNext localeCompare docs st
  = {| Sync.connectionStatus := Sync.StatusConnected; Sync.items := Sync.items st |}.
Proof.
  intros Hin Hbad. unfold Sync.onSnapshotNext.
  destruct (cmapM_Throw
              (fun d => App.buildProcess (Sync.docData d) (Sync.docId d))
              docs d TypeError Hin (buildProcess_throws _ _ Hbad)) as [e ->].
  done.
Qed.

(** X6, witness: a well-formed document arrives together with one whose
    supplier name is a list, after PO-1 was in the collection. *)
Lemma malformed_document_blocks_snapshot_witness :
  let before :=
    Sync.onSnapshotNext codeUnitCompare
      [{| Sync.docId := js "PO-1"; Sync.docData := pendingRecord |}]
      Sync.initialState in
  Sync.onSnapshotNext codeUnitCompare
    [{| Sync.docId := js "PO-2"; Sync.docData := pendingRecord |};
     {| Sync.docId := js "PO-7"; Sync.docData := listSupplierRecord |}] before
  = {| Sync.connectionStatus := Sync.StatusConnected;
       Sync.items := Sync.items before |}.
Proof.
  apply (malformed_document_blocks_snapshot codeUnitCompare _ _
           {| Sync.docId := js "PO-7"; Sync.docData := listSupplierRecord |}).
  - apply list_elem_of_In. right. left. reflexivity.
  - right. reflexivity.
Defined.

(** X7.  A notification whose documents are all well-formed replaces
    the collection wholesale: the new collection does not depend on the
    one held before, has one process for each document, and the
    connection state is connected. *)
Theorem snapshot_replaces_collection
    (localeCompare : jsstring → jsstring → Z)
    (docs : list Sync.QueryDocumentSnapshot) (st st' : Sync.SyncState) :
  Forall (fun d =>
            App.stringOrAbsent (Js.getProp (Sync.docData d) (js "id")) = true
            ∧ App.stringOrAbsent (Js.getProp (Sync.docData d) (js "supplierName"))
              = true) docs →
  Sync.onSnapshotNext localeCompare docs st
  = Sync.onSnapshotNext localeCompare docs st'
  ∧ List.length (Sync.items (Sync.onSnapshotNext localeCompare docs st))
    = List.length docs
  ∧ Sync.connectionStatus (Sync.onSnapshotNext localeCompare docs st)
    = Sync.StatusConnected.
Proof.
  intros Hdocs.
  destruct (cmapM_Normal
              (fun d => App.buildProcess (Sync.docData d) (Sync.docId d)) docs)
    as (ps & Hps & Hlen).
  { eapply Forall_impl; [exact Hdocs|]. intros d [Hid Hsup].
    by apply buildProcess_returns. }
  unfold Sync.onSnapshotNext. rewrite Hps.
  unfold Sync.setItems, Sync.setConnectionStatus.
  cbn [Sync.items Sync.connectionStatus]. split; [done|]. split; [|done].
  rewrite <- Hlen. apply Permutation_length, sort_perm.
Qed.

(** X7, witness: the three documents of the ordering example. *)
Lemma snapshot_replaces_collection_witness :
  let st' := Sync.onSnapshotNext codeUnitCompare
               [{| Sync.docId := js "PO-1"; Sync.docData := pendingRecord |}]
               Sync.initialState in
  Sync.onSnapshotNext codeUnitCompare orderingExample Sync.initialState
  = Sync.onSnapshotNext codeUnitCompare orderingExample st'
  ∧ List.length
      (Sync.items
         (Sync.onSnapshotNext codeUnitCompare orderingExample Sync.initialState))
    = List.length orderingExample
  ∧ Sync.connectionStatus
      (Sync.onSnapshotNext codeUnitCompare orderingExample Sync.initialState)
    = Sync.StatusConnected.
Proof.
  apply (snapshot_replaces_collection codeUnitCompare orderingExample).
  repeat (constructor; [split; reflexivity|]). constructor.
Defined.

(** X8.  In a session that runs, with services and a collection path
    that [collection] accepts, the connection state follows the last
    event alone: connecting before the first, connected after a
    snapshot, even one that could not be mapped, and error after a
    failure of the listener or of the sign-in. *)
Theorem connection_state_follows_last_event
    (localeCompare : jsstring → jsstring → Z)
    (svc : Sync.FirebaseServices) (appId : jsstring)
    (events : list Sync.SessionEvent) (ev : Sync.SessionEvent)
    (st : Sync.SyncState) :
  Sync.useProcurementData localeCompare (Some svc) appId (events ++ [ev])
    = Normal st →
  Sync.connectionStatus st
  = match ev with
    | Sync.SnapshotNext _ => Sync.StatusConnected
    | Sync.SnapshotError => Sync.StatusError
    | Sync.AuthenticationFailed => Sync.StatusError
    end
  ∧ ∃ st0, Sync.useProcurementData localeCompare (Some svc) appId [] = Normal st0
           ∧ Sync.connectionStatus st0 = Sync.StatusConnecting.
Proof.
  unfold Sync.useProcurementData.
  destruct (Firestore.collection _); [|done]. cbn. intros [= <-]. split.
  - rewrite foldl_app. cbn.
    destruct ev as [docs| |]; cbn; [|done..].
    unfold Sync.onSnapshotNext. by destruct (cmapM _ docs).
  - by eexists.
Qed.

(** X8, witness: a snapshot, then a failed sign-in. *)
Lemma connection_state_follows_last_event_witness :
  ∃ st,
    Sync.useProcurementData codeUnitCompare (Some Sync.firebaseServices)
      (js "default-app-id")
      ([Sync.SnapshotNext
          [{| Sync.docId := js "PO-1"; Sync.docData := pendingRecord |}]]
       ++ [Sync.AuthenticationFailed]) = Normal st
    ∧ Sync.connectionStatus st = Sync.StatusError
    ∧ ∃ st0,
        Sync.useProcurementData codeUnitCompare (Some Sync.firebaseServices)
          (js "default-app-id") [] = Normal st0
        ∧ Sync.connectionStatus st0 = Sync.StatusConnecting.
Proof.
  eexists. split; [reflexivity|].
  apply (connection_state_follows_last_event codeUnitCompare
           Sync.firebaseServices (js "default-app-id")
           [Sync.SnapshotNext
              [{| Sync.docId := js "PO-1"; Sync.docData := pendingRecord |}]]
           Sync.AuthenticationFailed).
  reflexivity.
Defined.

(** ** The filtered list, the counters and the selection *)

Section DashboardMore.
Import Js App Sync Dashboard.

Lemma filter_sublist_of {X} (f : X → bool) (l : list X) :
  List.filter f l `sublist_of` l.
Proof.
  induction l as [|x l IH]; [done|]. cbn. destruct (f x); by constructor.
Qed.

Lemma StronglySorted_sublist {X} (R : X → X → Prop) (l1 l2 : list X) :
  l1 `sublist_of` l2 → StronglySorted R l2 → StronglySorted R l1.
Proof.
  induction 1 as [|x l1 l2 Hsub IH|x l1 l2 Hsub IH]; intros Hs.
  - done.
  - apply StronglySorted_inv in Hs as [Hs Hx].
    constructor; [by apply IH|].
    rewrite Forall_forall in Hx. apply Forall_forall. intros y Hy.
    apply Hx. by eapply elem_of_sublist.
  - apply StronglySorted_inv in Hs as [Hs _]. by apply IH.
Qed.

Lemma map_sublist {X Y} (f : X → Y) (l1 l2 : list X) :
  l1 `sublist_of` l2 → map f l1 `sublist_of` map f l2.
Proof. induction 1; cbn; by constructor. Qed.

Lemma filteredProcesses_sublist toLowerCase filter processes searchTerm :
  filteredProcesses toLowerCase filter processes searchTerm `sublist_of` processes.
Proof.
  unfold filteredProcesses.
  assert ((if bool_decide (filter = js "all") then processes
           else List.filter (fun p => strictEqStr (status p) filter) processes)
          `sublist_of` processes) as H.
  { case_bool_decide; [done|apply filter_sublist_of]. }
  destruct (negb _); [done|].
  etrans; [apply filter_sublist_of|done].
Qed.

(** With a search term that sanitises to nothing, only the status
    selects. *)
Lemma filteredProcesses_blank toLowerCase filter processes searchTerm :
  toLowerCase [] = [] →
  Sanitizer.sanitizeTextInput searchTerm = [] →
  filteredProcesses toLowerCase filter processes searchTerm
  = if bool_decide (filter = js "all") then processes
    else List.filter (fun p => strictEqStr (status p) filter) processes.
Proof. intros Hlow Hterm. unfold filteredProcesses. by rewrite Hterm, Hlow. Qed.

Lemma countStatus_cons lit p processes :
  countStatus lit (p :: processes)
  = (Nat.b2n (strictEqStr (status p) lit) + countStatus lit processes)%nat.
Proof. unfold countStatus. cbn. by destruct (strictEqStr (status p) lit). Qed.

(** The three statuses exclude each other. *)
Lemma status_counted_once p :
  (Nat.b2n (strictEqStr (status p) (js "open"))
   + Nat.b2n (strictEqStr (status p) (js "conflict"))
   + Nat.b2n (strictEqStr (status p) (js "completed")))%nat
  = Nat.b2n (knownStatus p).
Proof.
  unfold knownStatus, strictEqStr. destruct (status p) as [| | | |s| |]; try done.
  repeat case_bool_decide; subst; try done.
Qed.

Lemma counters_sum processes :
  (countStatus (js "open") processes + countStatus (js "conflict") processes
   + countStatus (js "completed") processes)%nat
  = List.length (List.filter knownStatus processes).
Proof.
  induction processes as [|p processes IH]; [done|].
  rewrite !countStatus_cons. cbn [List.filter].
  pose proof (status_counted_once p) as Hp.
  destruct (knownStatus p); cbn [List.length Nat.b2n] in *; lia.
Qed.

Lemma filter_length_all {X} (f : X → bool) (l : list X) :
  (List.length (List.filter f l) ≤ List.length l)%nat
  ∧ (List.length (List.filter f l) = List.length l ↔ forallb f l = true).
Proof.
  induction l as [|x l [IH1 IH2]]; [done|]. cbn.
  destruct (f x); cbn; [|split; [lia|split; [lia|done]]].
  split; [lia|]. rewrite <- IH2. split; lia.
Qed.

(** [find] returns the first element that passes the test. *)
Lemma find_first {X} (f : X → bool) (l : list X) (q : X) :
  List.find f l = Some q →
  ∃ earlier later,
    l = earlier ++ q :: later ∧ f q = true ∧ Forall (fun r => f r = false) earlier.
Proof.
  induction l as [|x l IH]; [done|]. cbn.
  destruct (f x) eqn:Hx.
  - intros [= <-]. by exists [], l.
  - intros (earlier & later & -> & Hq & He)%IH.
    exists (x :: earlier), later. split; [done|]. split; [done|]. by constructor.
Qed.

Lemma selectedProcess_finds processes p :
  p ∈ processes →
  ∃ q earlier later,
    Upload.selectedProcess processes (Some (App.id p)) = Some q
    ∧ App.id q = App.id p
    ∧ processes = earlier ++ q :: later
    ∧ Forall (fun r => App.id r ≠ App.id p) earlier.
Proof.
  intros Hin. unfold Upload.selectedProcess.
  destruct (List.find _ processes) as [q|] eqn:Hq.
  - apply find_first in Hq as (earlier & later & Hl & Hq & He).
    exists q, earlier, later.
    apply bool_decide_eq_true in Hq. injection Hq as Hq.
    split; [done|]. split; [done|]. split; [done|].
    eapply Forall_impl; [exact He|]. intros r Hr Heq. cbn in Hr.
    by rewrite Heq, bool_decide_eq_true_2 in Hr.
  - apply list_elem_of_In in Hin.
    pose proof (find_none _ _ Hq p Hin) as Hp. cbn in Hp.
    by rewrite bool_decide_eq_true_2 in Hp.
Qed.

Lemma same_key_same_element {X K} (key : X → K) (l : list X) x y :
  NoDup (map key l) → x ∈ l → y ∈ l → key x = key y → x = y.
Proof.
  induction l as [|z l IH]; cbn; intros Hn Hx Hy Hk.
  - by apply elem_of_nil in Hx.
  - apply NoDup_cons in Hn as [Hz Hn].
    apply elem_of_cons in Hx as [->|Hx]; apply elem_of_cons in Hy as [->|Hy].
    + done.
    + exfalso. apply Hz. rewrite Hk. by apply list_elem_of_fmap_2.
    + exfalso. apply Hz. rewrite <- Hk. by apply list_elem_of_fmap_2.
    + by apply IH.
Qed.

End DashboardMore.

(** X9.  Whatever the filter and the search term, the list shown is a
    subsequence of the collection: no process is added or moved, so a
    collection in descending order of id, however the host compares
    strings, is shown in descending order. *)
Theorem filtered_list_keeps_order
    (localeCompare : jsstring → jsstring → Z)
    (toLowerCase : jsstring → jsstring) (filter : jsstring)
    (processes : list App.ProcurementProcess) (searchTerm : jsstring) :
  Dashboard.filteredProcesses toLowerCase filter processes searchTerm
    `sublist_of` processes
  ∧ (Sync.descending localeCompare (map App.id processes) →
     Sync.descending localeCompare
       (map App.id
          (Dashboard.filteredProcesses toLowerCase filter processes searchTerm))).
Proof.
  pose proof (filteredProcesses_sublist toLowerCase filter processes searchTerm) as H.
  split; [done|]. unfold Sync.descending.
  apply StronglySorted_sublist. by apply map_sublist.
Qed.

(** X10.  The counters for open, conflict and completed never add up
    to more than the total, and they add up to the total exactly when
    every process carries one of these three statuses. *)
Theorem counters_cover_known_statuses (processes : list App.ProcurementProcess) :
  let s := Dashboard.stats processes in
  (Dashboard.open s + Dashboard.conflict s + Dashboard.completed s
   ≤ Dashboard.total s)%nat
  ∧ ((Dashboard.open s + Dashboard.conflict s + Dashboard.completed s)%nat
     = Dashboard.total s
     ↔ forallb Dashboard.knownStatus processes = true).
Proof.
  cbn. rewrite counters_sum. apply filter_length_all.
Qed.

(** X11.  With a search term that sanitises to nothing, such as blanks
    or markup characters only, the list under each status filter has as
    many rows as the counter of that status shows, and the list under
    [all] is the whole collection. *)
Theorem blank_search_matches_counters
    (toLowerCase : jsstring → jsstring)
    (processes : list App.ProcurementProcess) (searchTerm : jsstring) :
  toLowerCase [] = [] →
  Sanitizer.sanitizeTextInput searchTerm = [] →
  let s := Dashboard.stats processes in
  Dashboard.filteredProcesses toLowerCase (js "all") processes searchTerm = processes
  ∧ List.length
      (Dashboard.filteredProcesses toLowerCase (js "open") processes searchTerm)
    = Dashboard.open s
  ∧ List.length
      (Dashboard.filteredProcesses toLowerCase (js "conflict") processes searchTerm)
    = Dashboard.conflict s
  ∧ List.length
      (Dashboard.filteredProcesses toLowerCase (js "completed") processes searchTerm)
    = Dashboard.completed s.
Proof.
  intros Hlow Hterm s.
  rewrite !(filteredProcesses_blank toLowerCase _ processes searchTerm Hlow Hterm).
  done.
Qed.

(** X11, witness: the term is two blanks around a pair of angle
    brackets, over the collection that holds PO-1. *)
Lemma blank_search_matches_counters_witness :
  let processes :=
    Sync.items (Sync.onSnapshotNext codeUnitCompare
                  [{| Sync.docId := js "PO-1"; Sync.docData := pendingRecord |}]
                  Sync.initialState) in
  let s := Dashboard.stats processes in
  Dashboard.filteredProcesses asciiToLowerCase (js "all") processes (js " <> ")
    = processes
  ∧ List.length
      (Dashboard.filteredProcesses asciiToLowerCase (js "open") processes (js " <> "))
    = Dashboard.open s
  ∧ List.length
      (Dashboard.filteredProcesses asciiToLowerCase (js "conflict") processes
         (js " <> "))
    = Dashboard.conflict s
  ∧ List.length
      (Dashboard.filteredProcesses asciiToLowerCase (js "completed") processes
         (js " <> "))
    = Dashboard.completed s.
Proof.
  apply (blank_search_matches_counters asciiToLowerCase); reflexivity.
Defined.

(** X12.  Clicking a row of the list selects the first process of the
    collection that has the id of that row: no process before it has
    that id.  It is the very process of the row when no two processes
    of the collection share an id. *)
Theorem clicked_row_is_selected
    (toLowerCase : jsstring → jsstring) (filter : jsstring)
    (processes : list App.ProcurementProcess) (searchTerm : jsstring)
    (row : App.ProcurementProcess) :
  row ∈ Dashboard.filteredProcesses toLowerCase filter processes searchTerm →
  ∃ q earlier later,
    Upload.selectedProcess processes (Some (App.id row)) = Some q
    ∧ App.id q = App.id row
    ∧ processes = earlier ++ q :: later
    ∧ Forall (fun r => App.id r ≠ App.id row) earlier
    ∧ (NoDup (map App.id processes) → q = row).
Proof.
  intros Hrow.
  assert (row ∈ processes) as Hin.
  { eapply elem_of_sublist; [exact Hrow|apply filteredProcesses_sublist]. }
  destruct (selectedProcess_finds processes row Hin)
    as (q & earlier & later & Hq & Hid & Hl & He).
  exists q, earlier, later. repeat split; try done.
  intros Hn. apply (same_key_same_element App.id processes); try done.
  rewrite Hl. apply elem_of_app. right. left.
Qed.

(** X12, witness: two processes share the id PO-1, and the row of the
    second one is clicked. *)
Lemma clicked_row_is_selected_witness :
  ∃ first row,
    App.buildProcess pendingRecord (js "PO-1") = Normal first
    ∧ App.buildProcess staleRecord (js "PO-1") = Normal row
    ∧ ∃ q earlier later,
        Upload.selectedProcess [first; row] (Some (App.id row)) = Some q
        ∧ App.id q = App.id row
        ∧ [first; row] = earlier ++ q :: later
        ∧ Forall (fun r => App.id r ≠ App.id row) earlier
        ∧ (NoDup (map App.id [first; row]) → q = row).
Proof.
  eexists. eexists. split; [reflexivity|]. split; [reflexivity|].
  apply (clicked_row_is_selected asciiToLowerCase (js "all") _ (js "po")).
  apply list_elem_of_In. right. left. reflexivity.
Defined.

Section SearchMore.
Import Dashboard.

Lemma startsWith_refl (s : jsstring) : startsWith s s = true.
Proof. induction s as [|c s IH]; [done|]. cbn. by rewrite N.eqb_refl. Qed.

Lemma includes_refl (s : jsstring) : includes s s = true.
Proof. destruct s; cbn; [done|]. by rewrite N.eqb_refl, startsWith_refl. Qed.

End SearchMore.

(** X13.  Typing the id of a process of the collection into the search
    box, under the filter [all], always lists that process, whatever
    the letter case mapping and the comparison of the host do. *)
Theorem search_by_id_finds_process
    (localeCompare : jsstring → jsstring → Z)
    (toLowerCase : jsstring → jsstring)
    (services : option Sync.FirebaseServices) (appId : jsstring)
    (events : list Sync.SessionEvent) (st : Sync.SyncState)
    (p : App.ProcurementProcess) :
  Sync.useProcurementData localeCompare services appId events = Normal st →
  p ∈ Sync.items st →
  p ∈ Dashboard.filteredProcesses toLowerCase (js "all") (Sync.items st) (App.id p).
Proof.
  intros Hst Hin.
  pose proof (useProcurementData_sanitised _ _ _ _ _ Hst) as Hs.
  rewrite Forall_forall in Hs. destruct (Hs p Hin) as [Hid _].
  unfold Dashboard.filteredProcesses. rewrite Hid.
  rewrite bool_decide_eq_true_2 by done.
  destruct (negb _); [done|].
  apply list_elem_of_In, filter_In. split; [by apply list_elem_of_In|].
  apply includes_refl.
Qed.

(** X13, witness: PO-1 after its snapshot. *)
Lemma search_by_id_finds_process_witness :
  ∃ st p,
    Sync.useProcurementData codeUnitCompare (Some Sync.firebaseServices)
      (js "default-app-id")
      [Sync.SnapshotNext
         [{| Sync.docId := js "PO-1"; Sync.docData := pendingRecord |}]]
    = Normal st
    ∧ App.buildProcess pendingRecord (js "PO-1") = Normal p
    ∧ p ∈ Dashboard.filteredProcesses asciiToLowerCase (js "all")
            (Sync.items st) (App.id p).
Proof.
  eexists. eexists. split; [reflexivity|]. split; [reflexivity|].
  apply (search_by_id_finds_process codeUnitCompare asciiToLowerCase
           (Some Sync.firebaseServices) (js "default-app-id")
           [Sync.SnapshotNext
              [{| Sync.docId := js "PO-1"; Sync.docData := pendingRecord |}]]).
  - reflexivity.
  - apply list_elem_of_In. left. reflexivity.
Defined.

(** ** The webhook settings, [localStorage] and [getAppId] *)

Section StorageMore.
Import Storage.

Lemma conf_key_ne_del_key : js "n8n_webhook_conf" ≠ js "n8n_webhook_del".
Proof. js_neq. Qed.




End StorageMore.

(** X14.  Saving then loading is a round trip: when the storage can be
    read and takes both writes, the URLs a reload reads from it are the
    sanitised URLs that [saveWebhooks] put into the state. *)
Theorem saved_webhooks_survive_reload (urls : WebhookUrls.t) (b : Storage.Browser) :
  Storage.readable b = true →
  Storage.accepts b (js "n8n_webhook_conf")
    (Sanitizer.sanitizeTextInput (WebhookUrls.confirmation urls)) = true →
  Storage.accepts b (js "n8n_webhook_del")
    (Sanitizer.sanitizeTextInput (WebhookUrls.delivery urls)) = true →
  (Storage.initialWebhookUrls (Storage.saveWebhooks urls b).2).1
  = (Storage.saveWebhooks urls b).1
  ∧ Storage.consoleLog (Storage.initialWebhookUrls (Storage.saveWebhooks urls b).2).2
    = Storage.consoleLog b.
Proof.
  intros Hr Hc Hd.
  unfold Storage.saveWebhooks, Storage.initialWebhookUrls,
    Storage.safeGetLocalStorage, Storage.safeSetLocalStorage.
  cbn [fst snd]. rewrite Hc. cbn [Storage.accepts]. rewrite Hd.
  cbn [Storage.readable Storage.localStorage]. rewrite Hr.
  cbn [Storage.readable Storage.localStorage fst snd Storage.consoleLog].
  rewrite lookup_insert_eq.
  rewrite lookup_insert_ne by (apply not_eq_sym, conf_key_ne_del_key).
  by rewrite lookup_insert_eq.
Qed.

(** X14, witness: two URLs with blanks and quotes around them, saved in
    an empty storage. *)
Lemma saved_webhooks_survive_reload_witness :
  let urls := {| WebhookUrls.confirmation := js "  'https://n8n.example/a' ";
                 WebhookUrls.delivery := js " <https://n8n.example/b> " |} in
  (Storage.initialWebhookUrls (Storage.saveWebhooks urls emptyBrowser).2).1
  = (Storage.saveWebhooks urls emptyBrowser).1
  ∧ Storage.consoleLog
      (Storage.initialWebhookUrls (Storage.saveWebhooks urls emptyBrowser).2).2
    = Storage.consoleLog emptyBrowser.
Proof.
  apply (saved_webhooks_survive_reload
           {| WebhookUrls.confirmation := js "  'https://n8n.example/a' ";
              WebhookUrls.delivery := js " <https://n8n.example/b> " |}
           emptyBrowser); reflexivity.
Defined.

(** X15.  A storage that refuses the writes does not stop the save:
    the state takes the sanitised URLs, the entries of the storage stay
    as they were, and each refused write is logged. *)
Theorem refused_storage_keeps_state (urls : WebhookUrls.t) (b : Storage.Browser) :
  (∀ key value, Storage.accepts b key value = false) →
  (Storage.saveWebhooks urls b).1
  = {| WebhookUrls.confirmation :=
         Sanitizer.sanitizeTextInput (WebhookUrls.confirmation urls);
       WebhookUrls.delivery :=
         Sanitizer.sanitizeTextInput (WebhookUrls.delivery urls) |}
  ∧ Storage.localStorage (Storage.saveWebhooks urls b).2 = Storage.localStorage b
  ∧ Storage.consoleLog (Storage.saveWebhooks urls b).2
    = Storage.consoleLog b
      ++ [js "LocalStorage write failed"; js "LocalStorage write failed"].
Proof.
  intros H. split; [done|].
  unfold Storage.saveWebhooks, Storage.safeSetLocalStorage. cbn [snd].
  rewrite H. cbn [Storage.accepts Storage.logError]. rewrite H.
  cbn. split; [done|]. by rewrite <- app_assoc.
Qed.

(** X15, witness: the locked browser. *)
Lemma refused_storage_keeps_state_witness :
  let urls := {| WebhookUrls.confirmation := sampleUrl;
                 WebhookUrls.delivery := [] |} in
  (Storage.saveWebhooks urls lockedBrowser).1
  = {| WebhookUrls.confirmation :=
         Sanitizer.sanitizeTextInput (WebhookUrls.confirmation urls);
       WebhookUrls.delivery :=
         Sanitizer.sanitizeTextInput (WebhookUrls.delivery urls) |}
  ∧ Storage.localStorage (Storage.saveWebhooks urls lockedBrowser).2
    = Storage.localStorage lockedBrowser
  ∧ Storage.consoleLog (Storage.saveWebhooks urls lockedBrowser).2
    = Storage.consoleLog lockedBrowser
      ++ [js "LocalStorage write failed"; js "LocalStorage write failed"].
Proof.
  apply (refused_storage_keeps_state
           {| WebhookUrls.confirmation := sampleUrl; WebhookUrls.delivery := [] |}
           lockedBrowser).
  reflexivity.
Defined.


(** X17.  The application id that [getAppId] returns is always one the
    sanitizer leaves alone, the default included; a non-empty
    [VITE_APP_ID] decides it whatever [window.__app_id] holds, even
    when it sanitises to the empty string. *)
Theorem appId_is_sanitised (e : Config.Environment) :
  Sanitizer.sanitizeTextInput (Config.getAppId e) = Config.getAppId e
  ∧ ∀ fromEnv, Config.VITE_APP_ID e = Some fromEnv → fromEnv ≠ [] →
      Config.getAppId e = Sanitizer.sanitizeTextInput fromEnv.
Proof.
  assert (Sanitizer.sanitizeTextInput Config.DEFAULT_APP_ID = Config.DEFAULT_APP_ID)
    as Hdef by (by vm_compute).
  split.
  - unfold Config.getAppId.
    destruct (Config.VITE_APP_ID e) as [[|c s]|],
      (Config.window_app_id e) as [[|c' s']|]; cbn [Js.truthyStr];
      try done; apply sanitizeTextInput_again.
  - intros fromEnv H Hne. unfold Config.getAppId. rewrite H.
    by destruct fromEnv.
Qed.

(** ** More on the runs of [handleFileUpload] *)

Section HandlerMore.
Import Js App Sync Upload.

(** Either a guard fails, or the run is that of the [try] statement. *)
Lemma handleFileUpload_dichotomy c env files rawStage :
  handleFileUpload c env files rawStage = ret tt
  ∨ ∃ stage file sid svc,
      sanitizeStage rawStage = Some stage
      ∧ files ≫= head = Some file
      ∧ sanitizedSelectedId c = Some sid
      ∧ truthyStr sid = true
      ∧ services c = Some svc.
Proof.
  unfold handleFileUpload.
  destruct (sanitizeStage rawStage) as [stage|]; [|by left].
  destruct (files ≫= head) as [file|]; [|by left].
  destruct (sanitizedSelectedId c) as [sid|]; [|by left].
  destruct (services c) as [svc|]; [|by left].
  destruct (truthyStr sid) eqn:Ht; [|by left].
  right. by exists stage, file, sid, svc.
Qed.

(** What the [catch] and [finally] blocks add to the run of the [try]
    block. *)
Lemma handleFileUpload_after_submit c env files rawStage stage file sid svc w :
  sanitizeStage rawStage = Some stage →
  files ≫= head = Some file →
  sanitizedSelectedId c = Some sid →
  truthyStr sid = true →
  services c = Some svc →
  let s := submitStage c env stage file sid (webhookUrlOf c stage)
             (setUploadingStage (Some stage) w).2 in
  let run := handleFileUpload c env files rawStage w in
  run.1 = Normal tt
  ∧ uploadingStage run.2 = None
  ∧ store run.2 = store s.2
  ∧ writes run.2 = writes s.2
  ∧ requests run.2 = requests s.2
  ∧ alerts run.2
    = alerts s.2 ++ match s.1 with Normal _ => [] | Throw _ => [uploadErrorMessage] end
  ∧ consoleErrors run.2
    = consoleErrors s.2 ++ match s.1 with Normal _ => [] | Throw e => [e] end.
Proof.
  intros Hs Hf Hi Ht Hv. cbv zeta.
  rewrite (handleFileUpload_run _ _ _ _ _ _ _ _ _ Hs Hf Hi Ht Hv).
  unfold tryFinally, tryCatch.
  destruct (submitStage c env stage file sid (webhookUrlOf c stage)
              (setUploadingStage (Some stage) w).2) as [[[]|e] w1];
    world_simpl; by rewrite ?app_nil_r.
Qed.

(** The [try] block neither shows an alert, nor logs, nor moves the
    marker. *)
Lemma submitStage_quiet c env stage file sid url w :
  uploadingStage (submitStage c env stage file sid url w).2 = uploadingStage w
  ∧ alerts (submitStage c env stage file sid url w).2 = alerts w
  ∧ consoleErrors (submitStage c env stage file sid url w).2 = consoleErrors w.
Proof.
  unfold submitStage, bind, liftC, updateDoc, fetch, throw, ret.
  destruct (doc (docSegments c sid)) as [ref|e]; [|done].
  destruct (store w !! ref) as [data|]; [|done].
  destruct (firstWriteAcked env); [|done].
  destruct (truthyStr url).
  - destruct (fetchReply env) as [status|]; [|done].
    by destruct (negb (responseOk status)).
  - cbn [store]. rewrite lookup_insert_eq.
    by destruct (secondWriteAcked env).
Qed.

(** What the [try] block issues: one or two writes, at most one
    request, and never a request together with a second write. *)
Lemma submitStage_issues c env stage file sid url w :
  ∃ nw nr,
    writes (submitStage c env stage file sid url w).2 = writes w ++ nw
    ∧ requests (submitStage c env stage file sid url w).2 = requests w ++ nr
    ∧ (List.length nw ≤ 2)%nat
    ∧ (List.length nr ≤ 1)%nat
    ∧ (nr ≠ [] → List.length nw = 1%nat)
    ∧ (truthyStr url = false → nr = [])
    ∧ (store (submitStage c env stage file sid url w).2 ≠ store w → nw ≠ []).
Proof.
  unfold submitStage, bind, liftC, updateDoc, fetch, throw, ret.
  destruct (doc (docSegments c sid)) as [ref|e].
  2: { exists [], []. cbn. rewrite !app_nil_r. repeat split; try done; lia. }
  destruct (store w !! ref) as [data|].
  2: { eexists [_], []. cbn. rewrite !app_nil_r. repeat split; try done; lia. }
  destruct (firstWriteAcked env).
  2: { eexists [_], []. cbn. rewrite !app_nil_r. repeat split; try done; lia. }
  destruct (truthyStr url).
  - eexists [_], [_].
    destruct (fetchReply env) as [status|];
      [destruct (negb (responseOk status))|]; cbn; repeat split; try done; lia.
  - cbn [store]. rewrite lookup_insert_eq.
    eexists [_; _], [].
    destruct (secondWriteAcked env); cbn; rewrite <- !app_assoc, ?app_nil_r;
      repeat split; try done; lia.
Qed.

(** The one document the [try] block can change is the one that [doc]
    names, and only if the store holds it. *)
Lemma submitStage_target c env stage file sid url w :
  store (submitStage c env stage file sid url w).2 = store w
  ∨ ∃ ref data data',
      doc (docSegments c sid) = Normal ref
      ∧ store w !! ref = Some data
      ∧ store (submitStage c env stage file sid url w).2
        = <[ref := data']> (store w).
Proof.
  unfold submitStage, bind, liftC, updateDoc, fetch, throw, ret.
  destruct (doc (docSegments c sid)) as [ref|e]; [|by left].
  destruct (store w !! ref) as [data|] eqn:Hst; [|by left].
  destruct (firstWriteAcked env); [|by left].
  right. exists ref, data.
  destruct (truthyStr url).
  - eexists. split; [done|]. split; [done|].
    destruct (fetchReply env) as [status|]; [|done].
    by destruct (negb (responseOk status)).
  - cbn [store]. rewrite lookup_insert_eq.
    destruct (secondWriteAcked env); eexists; (split; [done|]); (split; [done|]);
      cbn [snd store]; [by rewrite insert_insert_eq|done].
Qed.

(** The endpoint answers with a status from 200 to 299. *)
Lemma submitStage_dispatched c env stage file sid url ref data status w :
  truthyStr url = true →
  doc (docSegments c sid) = Normal ref →
  store w !! ref = Some data →
  firstWriteAcked env = true →
  fetchReply env = FetchResponse status →
  responseOk status = true →
  submitStage c env stage file sid url w
  = (Normal tt,
     {| store := <[ref := applyUpdate
                            (analyzingPayload stage file (timestampNow env)) data]>
                   (store w);
        uploadingStage := uploadingStage w;
        writes := writes w
                  ++ [{| writeRef := ref;
                         writePayload :=
                           analyzingPayload stage file (timestampNow env) |}];
        requests := requests w
                    ++ [{| requestUrl := url; requestMethod := js "POST";
                           formFile := file; formOrderId := sid;
                           formStage := stageName stage |}];
        consoleErrors := consoleErrors w; alerts := alerts w |}).
Proof.
  intros Hu Hd Hs Ha Hf Hok.
  unfold submitStage, bind, liftC. rewrite Hd.
  unfold updateDoc at 1. rewrite Hs, Ha, Hu.
  unfold fetch. rewrite Hf, Hok. done.
Qed.

(** The first write is rejected: the document is missing, or the store
    does not acknowledge. *)
Lemma submitStage_rejected c env stage file sid url ref w :
  doc (docSegments c sid) = Normal ref →
  store w !! ref = None ∨ firstWriteAcked env = false →
  submitStage c env stage file sid url w
  = (Throw FirestoreError,
     {| store := store w;
        uploadingStage := uploadingStage w;
        writes := writes w
                  ++ [{| writeRef := ref;
                         writePayload :=
                           analyzingPayload stage file (timestampNow env) |}];
        requests := requests w;
        consoleErrors := consoleErrors w; alerts := alerts w |}).
Proof.
  intros Hd H.
  unfold submitStage, bind, liftC. rewrite Hd.
  unfold updateDoc at 1.
  destruct (store w !! ref) as [data|]; [|done].
  destruct H as [H|H]; [done|]. by rewrite H.
Qed.

(** The fields of a document that a payload leaves alone. *)
Lemma getProp_after_analyzing stage file now data field :
  field ≠ stageName stage →
  getProp (applyUpdate (analyzingPayload stage file now) data) field
  = getProp data field.
Proof.
  intros H. rewrite applyUpdate_analyzing. by apply getProp_insert_ne.
Qed.

Lemma getProp_after_outcome stage isConflict data field :
  field ≠ stageName stage → field ≠ js "status" →
  getProp (applyUpdate (outcomePayload stage isConflict) data) field
  = getProp data field.
Proof.
  intros H1 H2. rewrite applyUpdate_outcome.
  rewrite getProp_insert_ne by done. by apply getProp_insert_ne.
Qed.

Lemma stage_field_after_written stage file now data field :
  field ≠ js "status" → field ≠ js "fileName" → field ≠ js "uploadedAt" →
  getProp (fieldsOf (getProp (applyUpdate (analyzingPayload stage file now) data)
                             (stageName stage))) field
  = getProp (fieldsOf (getProp data (stageName stage))) field.
Proof.
  intros H1 H2 H3. rewrite applyUpdate_analyzing, getProp_insert_eq.
  cbn [fieldsOf]. by rewrite !getProp_insert_ne.
Qed.

Lemma stage_field_after_decided stage isConflict data field :
  field ≠ js "status" → field ≠ js "conflictReason" →
  getProp (fieldsOf (getProp (applyUpdate (outcomePayload stage isConflict) data)
                             (stageName stage))) field
  = getProp (fieldsOf (getProp data (stageName stage))) field.
Proof.
  intros H1 H2. rewrite applyUpdate_outcome.
  rewrite getProp_insert_ne by (apply not_eq_sym, stageName_ne_status).
  rewrite getProp_insert_eq. cbn [fieldsOf]. by rewrite !getProp_insert_ne.
Qed.

End HandlerMore.

(** X18.  A run of the handler changes at most one document, the one
    that [doc] names for the sanitised id of the selected process, and
    it neither creates nor deletes a document. *)
Theorem handler_touches_only_selected_document
    (c : Upload.Closure) (env : Upload.Env) (files : option (list Upload.File))
    (rawStage : jsstring) (w : Upload.World) :
  let w' := (Upload.handleFileUpload c env files rawStage w).2 in
  dom (Upload.store w') = dom (Upload.store w)
  ∧ ∀ ref, Upload.store w' !! ref ≠ Upload.store w !! ref →
      ∃ sid, Upload.sanitizedSelectedId c = Some sid
             ∧ Upload.doc (Upload.docSegments c sid) = Normal ref.
Proof.
  cbv zeta.
  destruct (handleFileUpload_dichotomy c env files rawStage)
    as [->|(stage & file & sid & svc & Hs & Hf & Hi & Ht & Hv)];
    [by split|].
  destruct (handleFileUpload_after_submit c env files rawStage stage file sid svc w
              Hs Hf Hi Ht Hv) as (_ & _ & -> & _).
  destruct (submitStage_target c env stage file sid (Upload.webhookUrlOf c stage)
              (Upload.setUploadingStage (Some stage) w).2)
    as [->|(ref & data & data' & Hd & Hst & ->)]; [by split|].
  cbn [Upload.setUploadingStage snd Upload.store] in *. split.
  - apply dom_insert_lookup_L. by eexists.
  - intros ref' Hne. exists sid. split; [done|].
    destruct (decide (ref = ref')) as [<-|Hr]; [done|].
    by rewrite lookup_insert_ne in Hne.
Qed.

(** X19.  A run for a stage leaves every other top-level field of every
    stored document as it was: the other stages, the order, the names
    and dates.  Only the stage itself and [status] can change. *)
Theorem handler_leaves_other_fields
    (c : Upload.Closure) (env : Upload.Env) (files : option (list Upload.File))
    (rawStage : jsstring) (w : Upload.World)
    (stage : App.Stage) (field : jsstring) (ref : list jsstring) :
  App.sanitizeStage rawStage = Some stage →
  field ≠ js "status" →
  field ≠ App.stageName stage →
  Upload.storedField (Upload.handleFileUpload c env files rawStage w).2 ref field
  = Upload.storedField w ref field.
Proof.
  intros Hs Hf1 Hf2. unfold Upload.storedField.
  destruct (handleFileUpload_store c env files rawStage w)
    as [->|(stage' & file & ref' & data & Hs' & Hst & H)]; [done|].
  rewrite Hs in Hs'. injection Hs' as <-.
  destruct (decide (ref' = ref)) as [->|Hne].
  - rewrite Hst. destruct H as [-> | ->]; rewrite lookup_insert_eq.
    + by apply getProp_after_analyzing.
    + rewrite getProp_after_outcome by done. by apply getProp_after_analyzing.
  - destruct H as [-> | ->]; by rewrite lookup_insert_ne.
Qed.

(** X19, witness: the supplier name of PO-1 across a delivery run. *)
Lemma handler_leaves_other_fields_witness :
  Upload.storedField
    (Upload.handleFileUpload (closureWith [])
       (envWith true Upload.FetchRejected 0) (Some [sampleFile])
       (js "delivery") sampleWorld).2 samplePath (js "supplierName")
  = Upload.storedField sampleWorld samplePath (js "supplierName").
Proof.
  apply (handler_leaves_other_fields (closureWith [])
           (envWith true Upload.FetchRejected 0) (Some [sampleFile])
           (js "delivery") sampleWorld App.StageDelivery);
    [reflexivity|js_neq|js_neq].
Defined.

(** X20.  Within the submitted stage, a run writes [status],
    [fileName], [uploadedAt] and [conflictReason] only: any other field
    of the stage, such as the [data] of an earlier verification, stays
    as it was. *)
Theorem resubmission_keeps_stage_data
    (c : Upload.Closure) (env : Upload.Env) (files : option (list Upload.File))
    (rawStage : jsstring) (w : Upload.World)
    (stage : App.Stage) (field : jsstring) (ref : list jsstring) :
  App.sanitizeStage rawStage = Some stage →
  field ∉ [js "status"; js "fileName"; js "uploadedAt"; js "conflictReason"] →
  Upload.storedStageField
    (Upload.handleFileUpload c env files rawStage w).2 ref stage field
  = Upload.storedStageField w ref stage field.
Proof.
  intros Hs Hf. unfold Upload.storedStageField.
  assert (field ≠ js "status" ∧ field ≠ js "fileName" ∧ field ≠ js "uploadedAt"
          ∧ field ≠ js "conflictReason") as (H1 & H2 & H3 & H4).
  { repeat split; intros ->; apply Hf; set_solver. }
  destruct (handleFileUpload_store c env files rawStage w)
    as [->|(stage' & file & ref' & data & Hs' & Hst & H)]; [done|].
  rewrite Hs in Hs'. injection Hs' as <-.
  destruct (decide (ref' = ref)) as [->|Hne].
  - rewrite Hst. destruct H as [-> | ->]; rewrite lookup_insert_eq.
    + by apply stage_field_after_written.
    + rewrite stage_field_after_decided by done.
      by apply stage_field_after_written.
  - destruct H as [-> | ->]; by rewrite lookup_insert_ne.
Qed.

(** X20, witness: the [data] field of the confirmation of PO-1. *)
Lemma resubmission_keeps_stage_data_witness :
  Upload.storedStageField
    (Upload.handleFileUpload (closureWith [])
       (envWith true Upload.FetchRejected 0) (Some [sampleFile])
       (js "confirmation") sampleWorld).2 samplePath App.StageConfirmation (js "data")
  = Upload.storedStageField sampleWorld samplePath App.StageConfirmation (js "data").
Proof.
  apply (resubmission_keeps_stage_data (closureWith [])
           (envWith true Upload.FetchRejected 0) (Some [sampleFile])
           (js "confirmation") sampleWorld App.StageConfirmation);
    [reflexivity|].
  intros H. repeat (apply elem_of_cons in H as [H|H]; [vm_compute in H; discriminate H|]).
  by apply elem_of_nil in H.
Defined.

(** X21.  The endpoint is configured and answers with a status from
    200 to 299.  Then the run issued the one write that puts the stage
    to [analyzing] with the sanitised file name and the time of the
    upload, sent one POST request carrying the file, the sanitised id
    and the stage, showed no alert, and left the aggregate status and
    the outcome of the stage to the endpoint. *)
Theorem accepted_dispatch_outcome
    (c : Upload.Closure) (env : Upload.Env) (files : option (list Upload.File))
    (rawStage : jsstring) (w : Upload.World)
    (stage : App.Stage) (file : Upload.File) (sanitizedId : jsstring)
    (svc : Sync.FirebaseServices) (ref : list jsstring)
    (data : gmap jsstring JsVal) (status : Z) :
  App.sanitizeStage rawStage = Some stage →
  files ≫= head = Some file →
  Upload.sanitizedSelectedId c = Some sanitizedId →
  Js.truthyStr sanitizedId = true →
  Upload.services c = Some svc →
  Js.truthyStr (Upload.webhookUrlOf c stage) = true →
  Upload.doc (Upload.docSegments c sanitizedId) = Normal ref →
  Upload.store w !! ref = Some data →
  Upload.firstWriteAcked env = true →
  Upload.fetchReply env = Upload.FetchResponse status →
  (200 <= status <= 299)%Z →
  let w' := (Upload.handleFileUpload c env files rawStage w).2 in
  Upload.writes w'
  = Upload.writes w
    ++ [{| Upload.writeRef := ref;
           Upload.writePayload :=
             Upload.analyzingPayload stage file (Upload.timestampNow env) |}]
  ∧ Upload.requests w'
    = Upload.requests w
      ++ [{| Upload.requestUrl := Upload.webhookUrlOf c stage;
             Upload.requestMethod := js "POST";
             Upload.formFile := file;
             Upload.formOrderId := sanitizedId;
             Upload.formStage := App.stageName stage |}]
  ∧ Upload.alerts w' = Upload.alerts w
  ∧ Upload.consoleErrors w' = Upload.consoleErrors w
  ∧ Upload.storedStageField w' ref stage (js "status") = JStr (js "analyzing")
  ∧ Upload.storedStageField w' ref stage (js "fileName")
    = JStr (Sanitizer.sanitizeTextInput (Upload.name file))
  ∧ Upload.storedStageField w' ref stage (js "uploadedAt") = Upload.timestampNow env
  ∧ Upload.storedField w' ref (js "status") = Upload.storedField w ref (js "status").
Proof.
  intros Hs Hf Hi Ht Hv Hu Hd Hst Ha Hr Hok. cbv zeta.
  assert (Upload.responseOk status = true) as Hok'.
  { unfold Upload.responseOk. apply andb_true_iff. split; apply Z.leb_le; lia. }
  destruct (handleFileUpload_after_submit c env files rawStage stage file
              sanitizedId svc w Hs Hf Hi Ht Hv)
    as (_ & _ & Hstore & -> & -> & -> & ->).
  unfold Upload.storedStageField, Upload.storedField. rewrite Hstore.
  rewrite (submitStage_dispatched c env stage file sanitizedId _ ref data status
             (Upload.setUploadingStage (Some stage) w).2 Hu Hd Hst Ha Hr Hok').
  world_simpl. rewrite !app_nil_r, lookup_insert_eq, Hst.
  rewrite stage_field_after_analyzing, status_after_analyzing.
  rewrite applyUpdate_analyzing, getProp_insert_eq. cbn [Upload.fieldsOf].
  rewrite getProp_insert_eq.
  rewrite getProp_insert_ne by js_neq. rewrite getProp_insert_eq.
  done.
Qed.

(** X21, witness: the endpoint answers 204 to a confirmation for PO-1. *)
Lemma accepted_dispatch_outcome_witness :
  let env := envWith true (Upload.FetchResponse 204) 0 in
  let w' := (Upload.handleFileUpload (closureWith sampleUrl) env
               (Some [sampleFile]) (js "confirmation") sampleWorld).2 in
  Upload.writes w'
  = Upload.writes sampleWorld
    ++ [{| Upload.writeRef := samplePath;
           Upload.writePayload :=
             Upload.analyzingPayload App.StageConfirmation sampleFile
               (Upload.timestampNow env) |}]
  ∧ Upload.requests w'
    = Upload.requests sampleWorld
      ++ [{| Upload.requestUrl :=
               Upload.webhookUrlOf (closureWith sampleUrl) App.StageConfirmation;
             Upload.requestMethod := js "POST";
             Upload.formFile := sampleFile;
             Upload.formOrderId := js "PO-1";
             Upload.formStage := App.stageName App.StageConfirmation |}]
  ∧ Upload.alerts w' = Upload.alerts sampleWorld
  ∧ Upload.consoleErrors w' = Upload.consoleErrors sampleWorld
  ∧ Upload.storedStageField w' samplePath App.StageConfirmation (js "status")
    = JStr (js "analyzing")
  ∧ Upload.storedStageField w' samplePath App.StageConfirmation (js "fileName")
    = JStr (Sanitizer.sanitizeTextInput (Upload.name sampleFile))
  ∧ Upload.storedStageField w' samplePath App.StageConfirmation (js "uploadedAt")
    = Upload.timestampNow env
  ∧ Upload.storedField w' samplePath (js "status")
    = Upload.storedField sampleWorld samplePath (js "status").
Proof.
  apply (accepted_dispatch_outcome (closureWith sampleUrl)
           (envWith true (Upload.FetchResponse 204) 0) (Some [sampleFile])
           (js "confirmation") sampleWorld App.StageConfirmation sampleFile
           (js "PO-1") Sync.firebaseServices samplePath pendingRecord 204);
    try reflexivity.
  lia.
Defined.

(** X22.  When the first write is rejected, because the store holds no
    document under the path or does not acknowledge the write, nothing
    is sent to the endpoint and no document changes; the run logs the
    error and shows the alert. *)
Theorem rejected_write_sends_nothing
    (c : Upload.Closure) (env : Upload.Env) (files : option (list Upload.File))
    (rawStage : jsstring) (w : Upload.World)
    (stage : App.Stage) (file : Upload.File) (sanitizedId : jsstring)
    (svc : Sync.FirebaseServices) (ref : list jsstring) :
  App.sanitizeStage rawStage = Some stage →
  files ≫= head = Some file →
  Upload.sanitizedSelectedId c = Some sanitizedId →
  Js.truthyStr sanitizedId = true →
  Upload.services c = Some svc →
  Upload.doc (Upload.docSegments c sanitizedId) = Normal ref →
  Upload.store w !! ref = None ∨ Upload.firstWriteAcked env = false →
  let w' := (Upload.handleFileUpload c env files rawStage w).2 in
  Upload.requests w' = Upload.requests w
  ∧ Upload.store w' = Upload.store w
  ∧ Upload.writes w'
    = Upload.writes w
      ++ [{| Upload.writeRef := ref;
             Upload.writePayload :=
               Upload.analyzingPayload stage file (Upload.timestampNow env) |}]
  ∧ Upload.consoleErrors w' = Upload.consoleErrors w ++ [FirestoreError]
  ∧ Upload.alerts w' = Upload.alerts w ++ [Upload.uploadErrorMessage].
Proof.
  intros Hs Hf Hi Ht Hv Hd Hrej. cbv zeta.
  destruct (handleFileUpload_after_submit c env files rawStage stage file
              sanitizedId svc w Hs Hf Hi Ht Hv)
    as (_ & _ & -> & -> & -> & -> & ->).
  rewrite (submitStage_rejected c env stage file sanitizedId _ ref
             (Upload.setUploadingStage (Some stage) w).2 Hd Hrej).
  done.
Qed.

(** X22, witness: PO-1 is selected and the store is empty. *)
Lemma rejected_write_sends_nothing_witness :
  let env := envWith true (Upload.FetchResponse 200) 0 in
  let w := {| Upload.store := ∅; Upload.uploadingStage := None;
              Upload.writes := []; Upload.requests := [];
              Upload.consoleErrors := []; Upload.alerts := [] |} in
  let w' := (Upload.handleFileUpload (closureWith sampleUrl) env
               (Some [sampleFile]) (js "delivery") w).2 in
  Upload.requests w' = Upload.requests w
  ∧ Upload.store w' = Upload.store w
  ∧ Upload.writes w'
    = Upload.writes w
      ++ [{| Upload.writeRef := samplePath;
             Upload.writePayload :=
               Upload.analyzingPayload App.StageDelivery sampleFile
                 (Upload.timestampNow env) |}]
  ∧ Upload.consoleErrors w' = Upload.consoleErrors w ++ [FirestoreError]
  ∧ Upload.alerts w' = Upload.alerts w ++ [Upload.uploadErrorMessage].
Proof.
  apply (rejected_write_sends_nothing (closureWith sampleUrl)
           (envWith true (Upload.FetchResponse 200) 0) (Some [sampleFile])
           (js "delivery") _ App.StageDelivery sampleFile (js "PO-1")
           Sync.firebaseServices samplePath); try reflexivity.
  left. reflexivity.
Defined.

(** X23.  When no endpoint is configured for the stage, the handler
    never sends a request, whatever the store answers. *)
Theorem no_endpoint_no_request
    (c : Upload.Closure) (env : Upload.Env) (files : option (list Upload.File))
    (rawStage : jsstring) (w : Upload.World) :
  (∀ stage, App.sanitizeStage rawStage = Some stage →
            Upload.webhookUrlOf c stage = []) →
  Upload.requests (Upload.handleFileUpload c env files rawStage w).2
  = Upload.requests w.
Proof.
  intros Hurl.
  destruct (handleFileUpload_dichotomy c env files rawStage)
    as [->|(stage & file & sid & svc & Hs & Hf & Hi & Ht & Hv)]; [done|].
  destruct (handleFileUpload_after_submit c env files rawStage stage file sid svc w
              Hs Hf Hi Ht Hv) as (_ & _ & _ & _ & -> & _).
  destruct (submitStage_issues c env stage file sid (Upload.webhookUrlOf c stage)
              (Upload.setUploadingStage (Some stage) w).2)
    as (nw & nr & _ & -> & _ & _ & _ & Hnr & _).
  rewrite Hnr by (by rewrite (Hurl stage Hs)).
  by rewrite app_nil_r.
Qed.

(** X23, witness: a confirmation for PO-1 with no endpoint saved. *)
Lemma no_endpoint_no_request_witness :
  Upload.requests
    (Upload.handleFileUpload (closureWith [])
       (envWith true (Upload.FetchResponse 200) 0) (Some [sampleFile])
       (js "confirmation") sampleWorld).2
  = Upload.requests sampleWorld.
Proof.
  apply (no_endpoint_no_request (closureWith [])
           (envWith true (Upload.FetchResponse 200) 0) (Some [sampleFile])
           (js "confirmation") sampleWorld).
  intros stage _. by destruct stage.
Defined.

(** X24.  Whatever it is called with and whatever the outside answers,
    the handler completes normally, and one run issues at most two
    writes, sends at most one request and shows at most one alert; a
    run that sent a request issued exactly one write; a run that
    changed the store issued a write; and an alert is shown exactly
    when an error is logged. *)
Theorem handler_effects_are_bounded
    (c : Upload.Closure) (env : Upload.Env) (files : option (list Upload.File))
    (rawStage : jsstring) (w : Upload.World) :
  let run := Upload.handleFileUpload c env files rawStage w in
  run.1 = Normal tt
  ∧ ∃ nw nr na ne,
      Upload.writes run.2 = Upload.writes w ++ nw
      ∧ Upload.requests run.2 = Upload.requests w ++ nr
      ∧ Upload.alerts run.2 = Upload.alerts w ++ na
      ∧ Upload.consoleErrors run.2 = Upload.consoleErrors w ++ ne
      ∧ (List.length nw ≤ 2)%nat
      ∧ (List.length nr ≤ 1)%nat
      ∧ (List.length na ≤ 1)%nat
      ∧ List.length ne = List.length na
      ∧ (nr ≠ [] → List.length nw = 1%nat)
      ∧ (Upload.store run.2 ≠ Upload.store w → nw ≠ []).
Proof.
  cbv zeta.
  destruct (handleFileUpload_dichotomy c env files rawStage)
    as [->|(stage & file & sid & svc & Hs & Hf & Hi & Ht & Hv)].
  { split; [done|]. exists [], [], [], []. cbn. rewrite !app_nil_r.
    repeat split; try done; lia. }
  destruct (handleFileUpload_after_submit c env files rawStage stage file sid svc w
              Hs Hf Hi Ht Hv) as (-> & _ & -> & -> & -> & -> & ->).
  split; [done|].
  destruct (submitStage_issues c env stage file sid (Upload.webhookUrlOf c stage)
              (Upload.setUploadingStage (Some stage) w).2)
    as (nw & nr & -> & -> & Hnw & Hnr & Hone & _ & Hst).
  destruct (submitStage_quiet c env stage file sid (Upload.webhookUrlOf c stage)
              (Upload.setUploadingStage (Some stage) w).2) as (_ & -> & ->).
  exists nw, nr.
  destruct (Upload.submitStage _ _ _ _ _ _ _).1 as [[]|e].
  - exists [], []. cbn in *. repeat split; try done; lia.
  - eexists [_], [_]. cbn in *. repeat split; try done; lia.
Qed.

(** ** The upload controls *)

Section ViewMore.
Import Js App Sync Upload Dashboard.

(** A stage that can be started is not verified. *)
Lemma startable_not_verified step :
  startable step = true → strictEqStr (stepStatus step) (js "verified") = false.
Proof.
  unfold startable, strictEqStr. destruct (stepStatus step); try done.
  repeat case_bool_decide; subst; done.
Qed.

Lemma panelInput_confirmation p uploading raw :
  raw ∈ panelInput (confirmationPanel p uploading) →
  raw = js "confirmation"
  ∧ startable (App.confirmation p) = true
  ∧ uploading ≠ Some StageConfirmation.
Proof.
  unfold confirmationPanel.
  destruct (startable (App.confirmation p)); [|by intros ?%elem_of_nil].
  case_bool_decide; [by intros ?%elem_of_nil|].
  by intros ->%list_elem_of_singleton.
Qed.

Lemma panelInput_delivery p uploading raw :
  raw ∈ panelInput (deliveryPanel p uploading) →
  raw = js "delivery"
  ∧ strictEqStr (stepStatus (App.confirmation p)) (js "verified") = true
  ∧ startable (App.delivery p) = true
  ∧ uploading ≠ Some StageDelivery.
Proof.
  unfold deliveryPanel.
  destruct (strictEqStr (stepStatus (App.confirmation p)) (js "verified"));
    [|by intros ?%elem_of_nil]. cbn [negb].
  destruct (startable (App.delivery p)); [|by intros ?%elem_of_nil].
  case_bool_decide; [by intros ?%elem_of_nil|].
  by intros ->%list_elem_of_singleton.
Qed.

End ViewMore.

(** X25.  The screen never offers two uploads at once.  A file input is
    offered only for the selected process, only for a stage that is
    pending or in conflict and has no upload in flight, under a stage
    name that [sanitizeStage] accepts, and for the delivery stage only
    when the confirmation is verified. *)
Theorem upload_inputs_are_exclusive
    (processes : list App.ProcurementProcess) (selected : option jsstring)
    (uploading : option App.Stage) :
  (List.length (Upload.uploadInputs processes selected uploading) ≤ 1)%nat
  ∧ ∀ raw, raw ∈ Upload.uploadInputs processes selected uploading →
      ∃ stage p,
        App.sanitizeStage raw = Some stage
        ∧ Upload.selectedProcess processes selected = Some p
        ∧ Upload.startable (Dashboard.stageStep stage p) = true
        ∧ uploading ≠ Some stage
        ∧ (stage = App.StageDelivery →
           Js.strictEqStr (App.stepStatus (App.confirmation p)) (js "verified")
           = true).
Proof.
  unfold Upload.uploadInputs.
  destruct (Upload.selectedProcess processes selected) as [p|];
    [|split; [cbn; lia|by intros raw ?%elem_of_nil]].
  split.
  - unfold Upload.confirmationPanel, Upload.deliveryPanel.
    destruct (Upload.startable (App.confirmation p)) eqn:Hc.
    + rewrite (startable_not_verified _ Hc). cbn [negb Upload.panelInput].
      rewrite app_nil_r. case_bool_decide; cbn; lia.
    + cbn [Upload.panelInput app].
      destruct (negb _); [cbn; lia|].
      destruct (Upload.startable (App.delivery p)); [|cbn; lia].
      case_bool_decide; cbn; lia.
  - intros raw [H|H]%elem_of_app.
    + apply panelInput_confirmation in H as (-> & Hs & Hu).
      exists App.StageConfirmation, p. by repeat split.
    + apply panelInput_delivery in H as (-> & Hv & Hs & Hu).
      exists App.StageDelivery, p. by repeat split.
Qed.

(** X26.  A confirmation decided by the fallback branch governs the
    delivery stage of the process mapped from the stored document:
    when the draw is at most 0.7 the confirmation shows as matched and
    the delivery stage is no longer blocked; otherwise the delivery
    stage is blocked and the confirmation can be uploaded again. *)
Theorem fallback_confirmation_gates_delivery
    (c : Upload.Closure) (env : Upload.Env) (files : option (list Upload.File))
    (w : Upload.World) (file : Upload.File) (sanitizedId : jsstring)
    (svc : Sync.FirebaseServices) (ref : list jsstring)
    (data : gmap jsstring JsVal) :
  files ≫= head = Some file →
  Upload.sanitizedSelectedId c = Some sanitizedId →
  Js.truthyStr sanitizedId = true →
  Upload.services c = Some svc →
  Js.truthyStr (Upload.webhookUrlOf c App.StageConfirmation) = false →
  Upload.doc (Upload.docSegments c sanitizedId) = Normal ref →
  Upload.store w !! ref = Some data →
  Upload.firstWriteAcked env = true →
  Upload.secondWriteAcked env = true →
  ∃ data',
    Upload.store (Upload.handleFileUpload c env files (js "confirmation") w).2 !! ref
    = Some data'
    ∧ ∀ fallbackId p uploading,
        App.buildProcess data' fallbackId = Normal p →
        ((Upload.mathRandom env <= Upload.double_0_7)%Z →
           Upload.confirmationPanel p uploading = Upload.PanelMatched
           ∧ Upload.deliveryPanel p uploading ≠ Upload.PanelBlocked)
        ∧ ((Upload.double_0_7 < Upload.mathRandom env)%Z →
           Upload.deliveryPanel p uploading = Upload.PanelBlocked
           ∧ Upload.confirmationPanel p None
             = Upload.PanelUploadInput (js "confirmation")).
Proof.
  intros Hf Hi Ht Hv Hu Hd Hst Ha1 Ha2.
  destruct (handleFileUpload_after_submit c env files (js "confirmation")
              App.StageConfirmation file sanitizedId svc w
              sanitizeStage_confirmation Hf Hi Ht Hv) as (_ & _ & -> & _).
  rewrite (submitStage_fallback c env App.StageConfirmation file sanitizedId _ ref
             data (Upload.setUploadingStage (Some App.StageConfirmation) w).2
             Hu Hd Hst Ha1 Ha2).
  cbn [snd Upload.store]. rewrite lookup_insert_eq.
  eexists. split; [reflexivity|].
  intros fallbackId p uploading Hp.
  apply buildProcess_Normal in Hp as (_ & _ & _ & Hc & _).
  rewrite applyUpdate_outcome in Hc.
  rewrite getProp_insert_ne, getProp_insert_eq, coalesce_object in Hc by js_neq.
  assert (App.stepStatus (App.confirmation p)
          = JStr (if Upload.isConflictDraw (Upload.mathRandom env)
                  then js "conflict" else js "verified")) as Hstatus.
  { rewrite Hc. apply spread_written_status. js_neq. }
  unfold Upload.isConflictDraw in Hstatus.
  unfold Upload.confirmationPanel, Upload.deliveryPanel, Upload.startable.
  rewrite Hstatus. split.
  - intros H. apply Z.ltb_ge in H. rewrite H. split; [done|].
    change (Js.strictEqStr (JStr (js "verified")) (js "verified")) with true.
    cbn [negb]. destruct (_ || _); [case_bool_decide|]; done.
  - intros H. apply Z.ltb_lt in H. by rewrite H.
Qed.

(** X26, witness: PO-1 with the draw 0, a verified confirmation. *)
Lemma fallback_confirmation_gates_delivery_witness :
  let env := envWith true Upload.FetchRejected 0 in
  ∃ data',
    Upload.store
      (Upload.handleFileUpload (closureWith []) env (Some [sampleFile])
         (js "confirmation") sampleWorld).2 !! samplePath
    = Some data'
    ∧ ∀ fallbackId p uploading,
        App.buildProcess data' fallbackId = Normal p →
        ((Upload.mathRandom env <= Upload.double_0_7)%Z →
           Upload.confirmationPanel p uploading = Upload.PanelMatched
           ∧ Upload.deliveryPanel p uploading ≠ Upload.PanelBlocked)
        ∧ ((Upload.double_0_7 < Upload.mathRandom env)%Z →
           Upload.deliveryPanel p uploading = Upload.PanelBlocked
           ∧ Upload.confirmationPanel p None
             = Upload.PanelUploadInput (js "confirmation")).
Proof.
  apply (fallback_confirmation_gates_delivery (closureWith [])
           (envWith true Upload.FetchRejected 0) (Some [sampleFile]) sampleWorld
           sampleFile (js "PO-1") Sync.firebaseServices samplePath pendingRecord);
    reflexivity.
Defined.
